(** * StockManager: a line-oriented stock ledger (run.py)

    Shallow embedding of the [StockManager] class of [run.py] and the
    properties of its instruction interpreter.

    Modelling conventions.
    - A Python [str] is a Rocq [string] whose characters are the code
      points below 256; the character tables of [str.split],
      [str.isdigit] and [int] are written out for that range, and the
      statements are about such strings.  [int] refuses a string of
      more than 4300 digits, which is the interpreter's default limit.
    - [self.stock] is a [gmap string Z]: Python integers are unbounded.
    - A method that mutates [self.stock] is a function from the table to
      an outcome and the table it leaves behind; an exception keeps the
      mutations done before it was raised, as in Python.
    - The text of a [StockError] is determined by the [raise] statement
      and the values formatted into it; the model records exactly those. *)

From Stdlib Require Import ZArith NArith Ascii String List Lia Bool.
From stdpp Require Import base option list strings gmap fin_maps.
From stdpp Require Import sorting pretty.

Local Open Scope string_scope.
Local Open Scope Z_scope.

(** ** Python strings *)

Module PyStr.

Definition code (c : ascii) : N := N_of_ascii c.

Definition in_range (lo hi : N) (c : ascii) : bool :=
  ((lo <=? code c) && (code c <=? hi))%N.

(** [c.isspace()] for one character: TAB..CR, FS..US, SPACE, NEL, NBSP. *)
Definition isspace (c : ascii) : bool :=
  in_range 9 13 c || in_range 28 32 c
  || (code c =? 133)%N || (code c =? 160)%N.

(** Characters with a decimal value (Unicode category Nd) below code
    point 256: "0".."9". *)
Definition isdecimal (c : ascii) : bool := in_range 48 57 c.

(** [c.isdigit()] for one character below code point 256: the decimal
    digits and the superscripts two, three and one (U+00B2, U+00B3,
    U+00B9). *)
Definition isdigit_char (c : ascii) : bool :=
  isdecimal c || (code c =? 178)%N || (code c =? 179)%N || (code c =? 185)%N.

Fixpoint forallb_str (p : ascii -> bool) (s : string) : bool :=
  match s with
  | EmptyString => true
  | String c s' => p c && forallb_str p s'
  end.

(** [s.isdigit()]: at least one character and all of them digits. *)
Definition isdigit (s : string) : bool :=
  match s with
  | EmptyString => false
  | _ => forallb_str isdigit_char s
  end.

Definition digit_value (c : ascii) : Z := Z.of_N (code c) - 48.

Fixpoint int_acc (acc : Z) (s : string) : Z :=
  match s with
  | EmptyString => acc
  | String c s' => int_acc (10 * acc + digit_value c) s'
  end.

(** [s.split()]: maximal runs of non-whitespace characters. *)
Fixpoint split_from (cur : string) (s : string) : list string :=
  match s with
  | EmptyString => match cur with EmptyString => [] | _ => [cur] end
  | String c s' =>
      if isspace c
      then match cur with
           | EmptyString => split_from EmptyString s'
           | _ => cur :: split_from EmptyString s'
           end
      else split_from (cur ++ String c EmptyString) s'
  end.

Definition split (s : string) : list string := split_from EmptyString s.

(** [s.lstrip()], [s.rstrip()] and [s.strip()]: whitespace removed at
    the left end, at the right end, at both ends. *)
Fixpoint lstrip (s : string) : string :=
  match s with
  | EmptyString => EmptyString
  | String c s' => if isspace c then lstrip s' else s
  end.

Fixpoint rstrip (s : string) : string :=
  match s with
  | EmptyString => EmptyString
  | String c s' =>
      match rstrip s' with
      | EmptyString => if isspace c then EmptyString else String c EmptyString
      | r => String c r
      end
  end.

Definition strip (s : string) : string := rstrip (lstrip s).

End PyStr.

(** ** Exceptions and outcomes *)

(** The six [raise StockError(...)] statements and what each formats
    into its message. *)
Inductive stock_error : Type :=
| InvalidSkuFormat (sku : string)
| InvalidAmountFormat (amount : string)
| UnknownCommand (operation : string)
| SkuNotFoundAdd (sku : string)
| SkuNotFoundOrder (sku : string)
| InsufficientStock (order_ref sku : string).

Inductive exn : Type :=
| StockError (e : stock_error)
| IndexError
| KeyError
| ValueError.

Inductive result (A : Type) : Type :=
| Return (a : A)
| Raise (e : exn).
Arguments Return {A} a.
Arguments Raise {A} e.

(** The default of [sys.get_int_max_str_digits()]. *)
Definition int_max_str_digits : N := 4300.

(** [int(s)] for the strings the program passes to it, those for which
    [s.isdigit()] holds: the decimal value, or a [ValueError] when some
    character is a digit without being a decimal, or when there are
    more digits than the interpreter converts.  (Signs, surrounding
    whitespace and underscores, which [int] accepts in general, cannot
    occur in such a string.) *)
Definition int (s : string) : result Z :=
  if PyStr.isdigit s && PyStr.forallb_str PyStr.isdecimal s
     && (N.of_nat (String.length s) <=? int_max_str_digits)%N
  then Return (PyStr.int_acc 0 s)
  else Raise ValueError.

(** [str(n)], which is how an f-string formats an integer. *)
Definition str (n : Z) : string := pretty n.

(** What [print] writes.  The lines of [print_stock] are plain text;
    the other messages of the program are recorded by the statement that
    prints them and the values formatted into them. *)
Inductive printed : Type :=
| Text (line : string)
| Processing (line_number : nat) (line : string)
| ErrorProcessing (line_number : nat) (line : string)
| ErrorDetail (e : stock_error)
| FinalStockLevels.

(** ** Regular expressions, as far as the SKU pattern needs them *)

Module Re.

Inductive regex : Type :=
| Bol                                  (* ^ *)
| Eol                                  (* $ *)
| Lit (c : ascii)
| Range (lo hi : ascii)                (* [lo-hi] *)
| Repeat (r : regex) (lo hi : nat)     (* r{lo,hi}, greedy *)
| Seq (r1 r2 : regex).

(** Backtracking matcher.  [at_start] tells whether the position is
    the beginning of the string; [k] is what remains to be matched. *)
Fixpoint run (r : regex) (at_start : bool) (s : string)
    (k : bool -> string -> bool) : bool :=
  match r with
  | Bol => at_start && k at_start s
  | Eol =>
      (* the end of the string, or just before a newline that ends it *)
      match s with
      | EmptyString => k at_start s
      | String c EmptyString => (PyStr.code c =? 10)%N && k at_start s
      | _ => false
      end
  | Lit c =>
      match s with
      | String c' s' => (PyStr.code c' =? PyStr.code c)%N && k false s'
      | EmptyString => false
      end
  | Range lo hi =>
      match s with
      | String c' s' =>
          PyStr.in_range (PyStr.code lo) (PyStr.code hi) c' && k false s'
      | EmptyString => false
      end
  | Repeat r lo hi =>
      (fix rep (lo hi : nat) (at_start : bool) (s : string) : bool :=
         match hi with
         | O => Nat.eqb lo 0 && k at_start s
         | S hi' =>
             run r at_start s (rep (Nat.pred lo) hi')
             || (Nat.eqb lo 0 && k at_start s)
         end) lo hi at_start s
  | Seq r1 r2 => run r1 at_start s (fun b s' => run r2 b s' k)
  end.

(** [re.match(pattern, s)] seen as a truth value: the pattern matches
    some prefix of [s]. *)
Definition match_ (pattern : regex) (s : string) : bool :=
  run pattern true s (fun _ _ => true).

End Re.

(** r"^[A-Z]{1,3}-[0-9]{1,3}$" *)
Definition sku_pattern : Re.regex :=
  Re.Seq Re.Bol
    (Re.Seq (Re.Repeat (Re.Range "A" "Z") 1 3)
       (Re.Seq (Re.Lit "-")
          (Re.Seq (Re.Repeat (Re.Range "0" "9") 1 3) Re.Eol))).

(** ** The state of a StockManager and the effects of its methods *)

(** A method body: run from a table, it gives an outcome and a table. *)
Definition M (A : Type) : Type := gmap string Z -> result A * gmap string Z.

Definition ret {A} (a : A) : M A := fun stock => (Return a, stock).

Definition raise {A} (e : exn) : M A := fun stock => (Raise e, stock).

Definition bind {A B} (m : M A) (f : A -> M B) : M B :=
  fun stock =>
    match m stock with
    | (Return a, stock') => f a stock'
    | (Raise e, stock') => (Raise e, stock')
    end.

(** A call that does not touch the table. *)
Definition lift {A} (r : result A) : M A := fun stock => (r, stock).

Declare Scope stock_scope.
Delimit Scope stock_scope with stock.
Bind Scope stock_scope with M.
Notation "x <- m ;; k" := (bind m (fun x => k))
  (at level 100, m at next level, k at level 200, right associativity)
  : stock_scope.
Notation "m ;; k" := (bind m (fun _ => k))
  (at level 100, k at level 200, right associativity) : stock_scope.
Local Open Scope stock_scope.

(** [try: body / except StockError: handler / else: orelse]: only a
    [StockError] of the body is caught, and the [else] suite runs
    outside the protection of the [try]. *)
Definition try_except_StockError_else {A B}
    (body : M A) (handler : M B) (orelse : A -> M B) : M B :=
  fun stock =>
    match body stock with
    | (Return a, stock') => orelse a stock'
    | (Raise (StockError _), stock') => handler stock'
    | (Raise e, stock') => (Raise e, stock')
    end.

(** [for x in l: body x] *)
Fixpoint for_each {A} (l : list A) (body : A -> M unit) : M unit :=
  match l with
  | [] => ret tt
  | x :: l' => body x ;; for_each l' body
  end.

(** [continue] as the last statement of a loop body *)
Definition continue : M unit := ret tt.

(** Reads and writes of [self.stock]. *)
Definition stock_contains (sku : string) : M bool :=
  fun stock => (Return (bool_decide (is_Some (stock !! sku))), stock).

Definition stock_getitem (sku : string) : M Z :=
  fun stock =>
    match stock !! sku with
    | Some level => (Return level, stock)
    | None => (Raise KeyError, stock)
    end.

Definition stock_setitem (sku : string) (level : Z) : M unit :=
  fun stock => (Return tt, <[sku := level]> stock).

(** ** List slices *)

(** [l[::2]] *)
Fixpoint step2 {A} (l : list A) : list A :=
  match l with
  | [] => []
  | [x] => [x]
  | x :: _ :: l' => x :: step2 l'
  end.

(** [l[start::2]] and [l[start:]] for a start that is not negative *)
Definition slice_step2 {A} (start : nat) (l : list A) : list A :=
  step2 (drop start l).
Definition slice_from {A} (start : nat) (l : list A) : list A := drop start l.

(** [l[i]] for an index that is not negative *)
Definition getitem {A} (l : list A) (i : nat) : result A :=
  match l !! i with
  | Some x => Return x
  | None => Raise IndexError
  end.

(** ** class StockManager *)

Module StockManager.

(** [__init__]: [self.stock = {}] *)
Definition init : gmap string Z := ∅.

Definition validate_sku (sku : string) : result unit :=
  if negb (Re.match_ sku_pattern sku)
  then Raise (StockError (InvalidSkuFormat sku))
  else Return tt.

(** [not amount.isdigit() or not (0 <= int(amount) <= 999)]: [or] only
    evaluates [int(amount)] when [isdigit] holds. *)
Definition validate_amount (amount : string) : result unit :=
  if negb (PyStr.isdigit amount)
  then Raise (StockError (InvalidAmountFormat amount))
  else
    match int amount with
    | Raise e => Raise e
    | Return n =>
        if negb ((0 <=? n) && (n <=? 999))
        then Raise (StockError (InvalidAmountFormat amount))
        else Return tt
    end.

Definition validate (sku amount : string) : M unit :=
  lift (validate_sku sku) ;; lift (validate_amount amount).

(** The bodies of the three [for sku, amount in zip(skus, amounts)]
    loops. *)
Definition set_stock_pair (pair : string * string) : M unit :=
  let '(sku, amount) := pair in
  try_except_StockError_else (validate sku amount)
    continue
    (fun _ =>
       n <- lift (int amount) ;;
       stock_setitem sku n).

Definition add_stock_pair (pair : string * string) : M unit :=
  let '(sku, amount) := pair in
  try_except_StockError_else (validate sku amount)
    continue
    (fun _ =>
       present <- stock_contains sku ;;
       if negb present
       then raise (StockError (SkuNotFoundAdd sku))
       else
         level <- stock_getitem sku ;;
         n <- lift (int amount) ;;
         stock_setitem sku (level + n)).

Definition order_pair (order_ref : string) (pair : string * string) : M unit :=
  let '(sku, amount) := pair in
  try_except_StockError_else (validate sku amount)
    continue
    (fun _ =>
       present <- stock_contains sku ;;
       if negb present
       then raise (StockError (SkuNotFoundOrder sku))
       else
         level <- stock_getitem sku ;;
         n <- lift (int amount) ;;
         if level <? n
         then raise (StockError (InsufficientStock order_ref sku))
         else
           level' <- stock_getitem sku ;;
           n' <- lift (int amount) ;;
           stock_setitem sku (level' - n')).

Definition process_set_stock (parts : list string) : M unit :=
  let skus := slice_step2 0 parts in
  let amounts := slice_step2 1 parts in
  for_each (zip skus amounts) set_stock_pair.

Definition process_add_stock (parts : list string) : M unit :=
  let skus := slice_step2 0 parts in
  let amounts := slice_step2 1 parts in
  for_each (zip skus amounts) add_stock_pair.

Definition process_order (parts : list string) : M unit :=
  order_ref <- lift (getitem parts 0) ;;
  let skus := slice_step2 1 parts in
  let amounts := slice_step2 2 parts in
  for_each (zip skus amounts) (order_pair order_ref).

Definition process_command (instruction : string) : M unit :=
  let parts := PyStr.split instruction in
  operation <- lift (getitem parts 0) ;;
  let sku_and_amount_pairs := slice_from 1 parts in
  if String.eqb operation "set-stock"
  then process_set_stock sku_and_amount_pairs
  else if String.eqb operation "add-stock"
  then process_add_stock sku_and_amount_pairs
  else if String.eqb operation "order"
  then process_order sku_and_amount_pairs
  else raise (StockError (UnknownCommand operation)).

(** [a < b] on the items of the table, as Python compares tuples: by
    the first components, and by the second ones when those are equal.
    Strings are compared character by character, by code point. *)
Definition item_lt (a b : string * Z) : bool :=
  if String.eqb a.1 b.1 then a.2 <? b.2 else String.ltb a.1 b.1.

(** [sorted(items)]: a stable sort that moves an item in front of
    another only when it is smaller. *)
Definition item_le (a b : string * Z) : Prop := item_lt b a = false.

#[global] Instance item_le_dec : RelDecision item_le.
Proof. intros a b. unfold item_le. apply _. Defined.

Definition sorted (items : list (string * Z)) : list (string * Z) :=
  merge_sort item_le items.

(** [print_stock], as the lines it prints.  The table is taken by its
    content, [map_to_list] standing for [self.stock.items()]. *)
Definition print_stock (stock : gmap string Z) : list string :=
  (fun '(sku, level) => sku ++ " " ++ str level) <$> sorted (map_to_list stock).

End StockManager.

Import StockManager.

(** The loop of [process_stock_file] over the lines that the file
    yields, numbered from [line_number]: the outcome, the table and what
    was printed.  An exception other than [StockError] ends the loop. *)
Fixpoint process_lines (line_number : nat) (lines : list string)
    (stock : gmap string Z) : result unit * gmap string Z * list printed :=
  match lines with
  | [] => (Return tt, stock, [])
  | line :: lines' =>
      let line := PyStr.strip line in
      match process_command line stock with
      | (Return _, stock') =>
          let '(r, stock'', out) :=
            process_lines (S line_number) lines' stock' in
          (r, stock'', Processing line_number line :: out)
      | (Raise (StockError e), stock') =>
          let '(r, stock'', out) :=
            process_lines (S line_number) lines' stock' in
          (r, stock'',
           Processing line_number line
           :: ErrorProcessing line_number line :: ErrorDetail e :: out)
      | (Raise e, stock') => (Raise e, stock', [Processing line_number line])
      end
  end.

(** [process_stock_file], from the lines of the file: a fresh
    [StockManager], the loop, then the final levels. *)
Definition process_stock_file (lines : list string) :
    result unit * list printed :=
  match process_lines 1 lines init with
  | (Return _, stock, out) =>
      (Return tt,
       (out ++ FinalStockLevels :: (Text <$> print_stock stock))%list)
  | (Raise e, _, out) => (Raise e, out)
  end.

(** The table after one more instruction, whatever its outcome. *)
Definition exec (stock : gmap string Z) (instruction : string) :
    gmap string Z :=
  (process_command instruction stock).2.

(** The table after a sequence of [process_command] calls, each of
    which may return or raise, as in the test suite; the tables that the
    line-by-line driver goes through are among these. *)
Definition run_all (instructions : list string) (stock : gmap string Z) :
    gmap string Z :=
  foldl exec stock instructions.

Definition newline : string := String (ascii_of_N 10) EmptyString.

(** The pairs that the loops of [process_set_stock] and
    [process_add_stock] go through: [zip(parts[::2], parts[1::2])]. *)
Definition pairs_of (parts : list string) : list (string * string) :=
  zip (slice_step2 0 parts) (slice_step2 1 parts).

(** Every level stored in the table satisfies [Q]. *)
Definition all_levels (Q : Z -> Prop) (stock : gmap string Z) : Prop :=
  forall sku level, stock !! sku = Some level -> Q level.

(** The SKU grammar in the words of the specification: one to three
    uppercase letters, a hyphen, one to three digits, and nothing else. *)
Definition is_upper (c : ascii) : bool := PyStr.in_range 65 90 c.

Definition sku_grammar (s : string) : Prop :=
  exists letters digits,
    s = letters ++ "-" ++ digits
    /\ (1 <= String.length letters <= 3)%nat
    /\ PyStr.forallb_str is_upper letters = true
    /\ (1 <= String.length digits <= 3)%nat
    /\ PyStr.forallb_str PyStr.isdecimal digits = true.

(** A string without whitespace, as the tokens of [str.split] are. *)
Definition no_space (s : string) : Prop :=
  PyStr.forallb_str (fun c => negb (PyStr.isspace c)) s = true.

(** The string of [n] zeros. *)
Fixpoint zeros (n : nat) : string :=
  match n with
  | O => EmptyString
  | S n' => String "0" (zeros n')
  end.

(** The one-character string U+00B2, superscript two: [isdigit] accepts
    it and [int] refuses it. *)
Definition superscript_two : string := String (ascii_of_N 178) EmptyString.

(** Whether a [process_command] call lets the loop of
    [process_stock_file] go on: it returned, or raised a [StockError]. *)
Definition goes_on (r : result unit) : Prop :=
  match r with
  | Return _ | Raise (StockError _) => True
  | Raise _ => False
  end.

(** Every line, processed from the table that the lines before it
    leave, returns or raises a [StockError]. *)
Definition all_go_on (lines : list string) (stock : gmap string Z) : Prop :=
  forall i line,
    lines !! i = Some line ->
    goes_on (process_command line (run_all (take i lines) stock)).1.

(** What the loop of [process_stock_file] prints for one line, given
    the outcome of [process_command] on it. *)
Definition line_report (n : nat) (line : string) (r : result unit) :
    list printed :=
  Processing n line
  :: match r with
     | Raise (StockError e) => [ErrorProcessing n line; ErrorDetail e]
     | _ => []
     end.

(** Whether [str n] passes [validate_amount] and is read back as [n]. *)
Definition amount_reads_back (n : Z) : bool :=
  match validate_amount (str n), int (str n) with
  | Return _, Return m => m =? n
  | _, _ => false
  end.

(** ** The scenarios of the test suite *)

Example test_set_stock :
  let stock := run_all ["set-stock AB-6 100 CD-3 200"] init in
  stock !! "AB-6" = Some 100 /\ stock !! "CD-3" = Some 200.
Proof. vm_compute. split; reflexivity. Qed.

Example test_add_stock :
  run_all ["set-stock AB-6 100"; "add-stock AB-6 20"] init !! "AB-6" = Some 120.
Proof. vm_compute. reflexivity. Qed.

Example test_process_order :
  run_all ["set-stock AB-6 100"; "order ON-123 AB-6 50"] init !! "AB-6"
  = Some 50.
Proof. vm_compute. reflexivity. Qed.

Example test_insufficient_stock_order :
  process_command "order ON-123 AB-6 150" (run_all ["set-stock AB-6 100"] init)
  = (Raise (StockError (InsufficientStock "ON-123" "AB-6")), {["AB-6" := 100]}).
Proof. vm_compute. reflexivity. Qed.

Example test_add_stock_new_sku :
  process_command "add-stock AB-6 20" init
  = (Raise (StockError (SkuNotFoundAdd "AB-6")), init).
Proof. vm_compute. reflexivity. Qed.

Example test_invalid_formats :
  validate_sku "AB_6" = Raise (StockError (InvalidSkuFormat "AB_6"))
  /\ validate_sku "A1-6" = Raise (StockError (InvalidSkuFormat "A1-6"))
  /\ validate_sku "AB--6" = Raise (StockError (InvalidSkuFormat "AB--6"))
  /\ validate_amount "10.5" = Raise (StockError (InvalidAmountFormat "10.5"))
  /\ validate_amount "-10" = Raise (StockError (InvalidAmountFormat "-10")).
Proof. vm_compute. repeat split; reflexivity. Qed.

Example test_unknown_command :
  process_command "unknown-command AB-6 100" init
  = (Raise (StockError (UnknownCommand "unknown-command")), init).
Proof. vm_compute. reflexivity. Qed.

Example test_order_with_unknown_sku :
  process_command "order ON-124 ZF-9 10" init
  = (Raise (StockError (SkuNotFoundOrder "ZF-9")), init).
Proof. vm_compute. reflexivity. Qed.

(** The suite expects a [StockError] from this call; the handler skips
    the pair and returns.  The table is as the suite expects. *)
Example test_stock_after_invalid_operation :
  process_command "set-stock AB-6 1000" init = (Return tt, init).
Proof. vm_compute. reflexivity. Qed.

(** ** Strings *)

Lemma append_assoc (a b c : string) : (a ++ b) ++ c = a ++ (b ++ c).
Proof.
  induction a as [|x a IH]; [reflexivity|].
  change (String x ((a ++ b) ++ c) = String x (a ++ (b ++ c))).
  rewrite IH. reflexivity.
Qed.

Lemma append_empty_r (a : string) : a ++ "" = a.
Proof.
  induction a as [|x a IH]; [reflexivity|].
  change (String x (a ++ "") = String x a). rewrite IH. reflexivity.
Qed.

(** ** The SKU pattern *)

(** One to three characters of a class, then the rest of the pattern. *)
Lemma run_class_1_3 (lo hi : ascii) b s k :
  Re.run (Re.Repeat (Re.Range lo hi) 1 3) b s k = true <->
  exists pre rest,
    s = pre ++ rest /\ (1 <= String.length pre <= 3)%nat
    /\ PyStr.forallb_str (PyStr.in_range (PyStr.code lo) (PyStr.code hi)) pre
       = true
    /\ k false rest = true.
Proof.
  cbn. generalize (PyStr.in_range (PyStr.code lo) (PyStr.code hi)). intros P.
  rewrite orb_false_r. split.
  - destruct s as [|c1 s1]; [discriminate|].
    destruct (P c1) eqn:H1; [|discriminate]. simpl.
    intros [H|H]%orb_true_iff.
    + destruct s1 as [|c2 s2]; [discriminate|].
      destruct (P c2) eqn:H2; [|discriminate]. simpl in H.
      apply orb_true_iff in H as [H|H].
      * destruct s2 as [|c3 s3]; [discriminate|].
        destruct (P c3) eqn:H3; [|discriminate]. simpl in H.
        exists (String c1 (String c2 (String c3 ""))), s3. simpl.
        rewrite H1, H2, H3. repeat split; auto; lia.
      * exists (String c1 (String c2 "")), s2. simpl.
        rewrite H1, H2. repeat split; auto; lia.
    + exists (String c1 ""), s1. simpl. rewrite H1. repeat split; auto; lia.
  - intros (pre & rest & -> & Hlen & Hall & Hk).
    destruct pre as [|c1 [|c2 [|c3 [|c4 pre]]]]; simpl in Hlen; try lia;
      simpl in Hall; repeat (apply andb_true_iff in Hall as [? Hall]); simpl;
      cbv [String.append];
      repeat match goal with H : P _ = true |- _ => rewrite H; clear H end;
      rewrite Hk; simpl; rewrite ?orb_true_r; reflexivity.
Qed.

Lemma code_eqb_eq c d : (PyStr.code c =? PyStr.code d)%N = true <-> c = d.
Proof.
  unfold PyStr.code. rewrite N.eqb_eq. split; [|congruence].
  intros H. rewrite <- (ascii_N_embedding c), <- (ascii_N_embedding d), H.
  reflexivity.
Qed.

Lemma run_Eol_true b s :
  Re.run Re.Eol b s (fun _ _ => true) = true <-> s = "" \/ s = newline.
Proof.
  simpl. destruct s as [|c [|c' s]].
  - split; auto.
  - rewrite andb_true_r. change 10%N with (PyStr.code (ascii_of_N 10)).
    rewrite code_eqb_eq. unfold newline. split.
    + intros ->. auto.
    + intros [H|H]; [discriminate | congruence].
  - split; [discriminate|]. intros [H|H]; discriminate.
Qed.

(** What [re.match] accepts for the SKU pattern: the grammar, and
    possibly one newline after it. *)
Lemma match_sku_pattern s :
  Re.match_ sku_pattern s = true
  <-> exists letters digits tail,
        s = letters ++ "-" ++ digits ++ tail
        /\ (1 <= String.length letters <= 3)%nat
        /\ PyStr.forallb_str is_upper letters = true
        /\ (1 <= String.length digits <= 3)%nat
        /\ PyStr.forallb_str PyStr.isdecimal digits = true
        /\ (tail = "" \/ tail = newline).
Proof.
  unfold Re.match_, sku_pattern.
  change (Re.run (Re.Seq Re.Bol ?r) true s ?k) with (Re.run r true s k).
  change (Re.run (Re.Seq ?r1 ?r2) true s ?k)
    with (Re.run r1 true s (fun b s' => Re.run r2 b s' k)).
  rewrite run_class_1_3. split.
  - intros (letters & rest & -> & Hlen & Hall & Hk).
    destruct rest as [|c rest]; [discriminate|].
    change (Re.run (Re.Seq (Re.Lit "-") ?r) false (String c rest) ?k)
      with ((PyStr.code c =? PyStr.code "-")%N && Re.run r false rest k) in Hk.
    apply andb_true_iff in Hk as [Hc Hk]. apply code_eqb_eq in Hc as ->.
    change (Re.run (Re.Seq ?r1 ?r2) false rest ?k)
      with (Re.run r1 false rest (fun b s' => Re.run r2 b s' k)) in Hk.
    apply run_class_1_3 in Hk as (digits & tail & -> & Hlen' & Hall' & Hk).
    apply run_Eol_true in Hk.
    exists letters, digits, tail. repeat split; auto; lia.
  - intros (letters & digits & tail & -> & Hlen & Hall & Hlen' & Hall' & Htail).
    exists letters, ("-" ++ digits ++ tail). repeat split; auto; try lia.
    change (Re.run (Re.Seq (Re.Lit "-") ?r) false ("-" ++ ?rest) ?k)
      with ((PyStr.code "-" =? PyStr.code "-")%N && Re.run r false rest k).
    rewrite N.eqb_refl, andb_true_l.
    change (Re.run (Re.Seq ?r1 ?r2) false ?rest ?k)
      with (Re.run r1 false rest (fun b s' => Re.run r2 b s' k)).
    apply run_class_1_3. exists digits, tail. repeat split; auto; try lia.
    apply run_Eol_true. exact Htail.
Qed.

(** [validate_sku] against the grammar of the specification. *)
Lemma validate_sku_spec s :
  validate_sku s = Return tt
  <-> sku_grammar s \/ exists g, sku_grammar g /\ s = g ++ newline.
Proof.
  unfold validate_sku.
  destruct (Re.match_ sku_pattern s) eqn:Hm; simpl.
  - split; [intros _|reflexivity].
    apply match_sku_pattern in Hm
      as (letters & digits & tail & -> & Hl & Ha & Hl' & Ha' & [-> | ->]).
    + left. exists letters, digits. rewrite append_empty_r. auto.
    + right. exists (letters ++ "-" ++ digits). split.
      * exists letters, digits. auto.
      * rewrite !append_assoc. reflexivity.
  - split; [discriminate|]. intros H. exfalso.
    assert (Re.match_ sku_pattern s = true); [|congruence].
    apply match_sku_pattern.
    destruct H as [(letters & digits & -> & H)
                  | (g & (letters & digits & -> & H) & ->)].
    + exists letters, digits, "". rewrite append_empty_r. intuition.
    + exists letters, digits, newline. rewrite !append_assoc. intuition.
Qed.

(** ** Validation *)

Ltac unfold_M :=
  unfold try_except_StockError_else, validate, continue, stock_contains,
    stock_getitem, stock_setitem, bind, lift, raise, ret in *.

Lemma validate_sku_outcome sku :
  validate_sku sku = Return tt
  \/ validate_sku sku = Raise (StockError (InvalidSkuFormat sku)).
Proof. unfold validate_sku. destruct (Re.match_ _ _); simpl; auto. Qed.

Lemma validate_amount_outcome amount :
  (validate_amount amount = Return tt
   /\ exists n, int amount = Return n /\ 0 <= n <= 999)
  \/ validate_amount amount = Raise (StockError (InvalidAmountFormat amount))
  \/ validate_amount amount = Raise ValueError.
Proof.
  unfold validate_amount, int.
  destruct (PyStr.isdigit amount); simpl; auto.
  destruct (PyStr.forallb_str PyStr.isdecimal amount); auto.
  destruct (_ <=? int_max_str_digits)%N; simpl; auto.
  destruct (0 <=? _) eqn:Hlo; simpl; auto.
  destruct (_ <=? 999) eqn:Hhi; simpl; auto.
  left. split; [reflexivity|]. eexists. split; [reflexivity|]. lia.
Qed.

Lemma validate_amount_Return amount :
  validate_amount amount = Return tt ->
  exists n, int amount = Return n /\ 0 <= n <= 999.
Proof.
  destruct (validate_amount_outcome amount) as [[_ H]|[H|H]]; auto;
    rewrite H; discriminate.
Qed.

(** Validation never touches the table, and it ends in one of three
    ways. *)
Lemma validate_outcome sku amount stock :
  (validate sku amount stock = (Return tt, stock)
   /\ validate_sku sku = Return tt /\ validate_amount amount = Return tt)
  \/ (exists e, validate sku amount stock = (Raise (StockError e), stock))
  \/ (validate sku amount stock = (Raise ValueError, stock)
      /\ validate_sku sku = Return tt).
Proof.
  unfold_M.
  destruct (validate_sku_outcome sku) as [-> | ->]; [|eauto].
  destruct (validate_amount_outcome amount) as [[-> _]|[-> | ->]]; eauto.
Qed.

(** ** Tokens *)

Lemma forallb_str_impl (p q : ascii -> bool) s :
  (forall c, p c = true -> q c = true) ->
  PyStr.forallb_str p s = true -> PyStr.forallb_str q s = true.
Proof.
  intros Hpq. induction s as [|c s IH]; simpl; [reflexivity|].
  intros [Hc Hs]%andb_true_iff. rewrite (Hpq _ Hc), (IH Hs). reflexivity.
Qed.

Lemma forallb_str_app p a b :
  PyStr.forallb_str p (a ++ b)
  = PyStr.forallb_str p a && PyStr.forallb_str p b.
Proof.
  induction a as [|c a IH]; [reflexivity|].
  change (p c && PyStr.forallb_str p (a ++ b)
          = p c && PyStr.forallb_str p a && PyStr.forallb_str p b).
  rewrite IH, andb_assoc. reflexivity.
Qed.

Lemma in_range_not_space lo hi :
  (32 < lo)%N -> (hi < 133)%N ->
  forall c, PyStr.in_range lo hi c = true -> negb (PyStr.isspace c) = true.
Proof.
  intros Hlo Hhi c. unfold PyStr.in_range, PyStr.isspace, PyStr.in_range.
  generalize (PyStr.code c). intros n [H1 H2]%andb_true_iff.
  apply N.leb_le in H1, H2.
  rewrite negb_true_iff, !orb_false_iff, !andb_false_iff, !N.leb_gt, !N.eqb_neq.
  lia.
Qed.

Lemma isdigit_char_not_space c :
  PyStr.isdigit_char c = true -> negb (PyStr.isspace c) = true.
Proof.
  unfold PyStr.isdigit_char, PyStr.isdecimal, PyStr.isspace, PyStr.in_range.
  generalize (PyStr.code c). intros n.
  rewrite !orb_true_iff, !andb_true_iff, !N.leb_le, !N.eqb_eq.
  rewrite negb_true_iff, !orb_false_iff, !andb_false_iff, !N.leb_gt, !N.eqb_neq.
  lia.
Qed.

Lemma sku_grammar_no_space s : sku_grammar s -> no_space s /\ s <> "".
Proof.
  intros (letters & digits & -> & Hl & Hletters & _ & Hdigits). split.
  - unfold no_space. rewrite !forallb_str_app.
    rewrite (forallb_str_impl _ _ _
               (in_range_not_space 65 90 eq_refl eq_refl) Hletters).
    rewrite (forallb_str_impl _ _ _
               (in_range_not_space 48 57 eq_refl eq_refl) Hdigits).
    reflexivity.
  - destruct letters; [simpl in Hl; lia | discriminate].
Qed.

Lemma valid_amount_no_space amount :
  validate_amount amount = Return tt -> no_space amount /\ amount <> "".
Proof.
  unfold validate_amount.
  destruct (PyStr.isdigit amount) eqn:Hd; [|discriminate]. intros _.
  destruct amount as [|c amount]; [discriminate|]. split; [|discriminate].
  exact (forallb_str_impl _ _ _ isdigit_char_not_space Hd).
Qed.

(** A token in front of the text is read in one go. *)
Lemma split_from_word cur word rest :
  no_space word ->
  PyStr.split_from cur (word ++ rest) = PyStr.split_from (cur ++ word) rest.
Proof.
  unfold no_space. revert cur. induction word as [|c word IH]; intros cur.
  - rewrite append_empty_r. reflexivity.
  - simpl. intros [Hc Hword]%andb_true_iff. apply negb_true_iff in Hc.
    change (String c word ++ rest) with (String c (word ++ rest)).
    simpl. rewrite Hc, (IH _ Hword), append_assoc. reflexivity.
Qed.

(** The tokens of the line [set-stock X N]. *)
Lemma split_set_stock_line X N :
  no_space X -> X <> "" -> no_space N -> N <> "" ->
  PyStr.split ("set-stock " ++ X ++ " " ++ N) = ["set-stock"; X; N].
Proof.
  intros HX HX0 HN HN0. unfold PyStr.split.
  change (PyStr.split_from "" ("set-stock " ++ X ++ " " ++ N))
    with ("set-stock" :: PyStr.split_from "" (X ++ String " " N)).
  rewrite (split_from_word "" X _ HX).
  change ("" ++ X) with X.
  replace (PyStr.split_from X (String " " N))
    with (X :: PyStr.split_from "" (N ++ ""))
    by (rewrite append_empty_r; destruct X; [congruence | reflexivity]).
  rewrite (split_from_word "" N _ HN).
  change ("" ++ N) with N. destruct N; [congruence | reflexivity].
Qed.

(** ** What one pair does to the table *)

Lemma set_stock_pair_effect p stock :
  set_stock_pair p stock = (Return tt, stock)
  \/ (exists n, 0 <= n <= 999
        /\ set_stock_pair p stock = (Return tt, <[p.1 := n]> stock))
  \/ set_stock_pair p stock = (Raise ValueError, stock).
Proof.
  destruct p as [sku amount]. unfold set_stock_pair.
  destruct (validate_outcome sku amount stock)
    as [(Hv & _ & Ha)|[[e Hv]|[Hv _]]];
    unfold try_except_StockError_else; rewrite Hv; auto.
  destruct (validate_amount_Return _ Ha) as (n & Hn & Hr).
  right; left. exists n. split; [lia|]. unfold_M. rewrite Hn. reflexivity.
Qed.

Lemma add_stock_pair_effect p stock :
  add_stock_pair p stock = (Return tt, stock)
  \/ (exists level n, stock !! p.1 = Some level /\ 0 <= n <= 999
        /\ add_stock_pair p stock = (Return tt, <[p.1 := level + n]> stock))
  \/ (exists e, add_stock_pair p stock = (Raise e, stock)).
Proof.
  destruct p as [sku amount]. unfold add_stock_pair.
  destruct (validate_outcome sku amount stock)
    as [(Hv & _ & Ha)|[[e Hv]|[Hv _]]];
    unfold try_except_StockError_else; rewrite Hv; eauto.
  destruct (validate_amount_Return _ Ha) as (n & Hn & Hr).
  unfold_M. destruct (stock !! sku) as [level|] eqn:Hl; simpl.
  - rewrite Hl, Hn.
    right; left. exists level, n. auto.
  - eauto.
Qed.

Lemma order_pair_effect order_ref p stock :
  order_pair order_ref p stock = (Return tt, stock)
  \/ (exists level n, stock !! p.1 = Some level /\ 0 <= n <= level
        /\ order_pair order_ref p stock
           = (Return tt, <[p.1 := level - n]> stock))
  \/ (exists e, order_pair order_ref p stock = (Raise e, stock)).
Proof.
  destruct p as [sku amount]. unfold order_pair.
  destruct (validate_outcome sku amount stock)
    as [(Hv & _ & Ha)|[[e Hv]|[Hv _]]];
    unfold try_except_StockError_else; rewrite Hv; eauto.
  destruct (validate_amount_Return _ Ha) as (n & Hn & Hr).
  unfold_M. destruct (stock !! sku) as [level|] eqn:Hl; simpl.
  - rewrite Hl, Hn.
    destruct (level <? n) eqn:Hlt; [eauto|].
    rewrite ?Hl, ?Hn. right; left. exists level, n.
    repeat split; auto; lia.
  - eauto.
Qed.

(** ** Invariants of the loops and of the dispatcher *)

Section Invariant.

Variable P : gmap string Z -> Prop.

Lemma for_each_inv {A} (body : A -> M unit) (l : list A) :
  (forall x stock, P stock -> P (body x stock).2) ->
  forall stock, P stock -> P (for_each l body stock).2.
Proof.
  intros Hbody. induction l as [|x l IH]; intros stock HP; simpl; auto.
  unfold bind. specialize (Hbody x stock HP).
  destruct (body x stock) as [[[]|e] stock']; simpl in *; auto.
Qed.

Hypothesis set_stock_pair_inv :
  forall p stock, P stock -> P (set_stock_pair p stock).2.
Hypothesis add_stock_pair_inv :
  forall p stock, P stock -> P (add_stock_pair p stock).2.
Hypothesis order_pair_inv :
  forall order_ref p stock, P stock -> P (order_pair order_ref p stock).2.

Lemma process_order_inv parts stock :
  P stock -> P (process_order parts stock).2.
Proof.
  intros HP. unfold process_order, bind, lift.
  destruct (getitem parts 0) as [order_ref|e]; simpl; auto.
  apply for_each_inv; auto.
Qed.

Lemma process_command_inv instruction stock :
  P stock -> P (process_command instruction stock).2.
Proof.
  intros HP. unfold process_command, bind, lift.
  destruct (getitem _ 0) as [operation|e]; simpl; auto.
  destruct (String.eqb operation "set-stock").
  { apply for_each_inv; auto. }
  destruct (String.eqb operation "add-stock").
  { apply for_each_inv; auto. }
  destruct (String.eqb operation "order").
  { apply process_order_inv; auto. }
  simpl; auto.
Qed.

Lemma run_all_inv instructions stock :
  P stock -> P (run_all instructions stock).
Proof.
  revert stock.
  induction instructions as [|i rest IH]; intros stock HP; simpl; auto.
  apply IH. apply process_command_inv; auto.
Qed.

End Invariant.

(** ** Bounds on the stored levels *)

Lemma all_levels_insert (Q : Z -> Prop) stock sku level :
  all_levels Q stock -> Q level -> all_levels Q (<[sku := level]> stock).
Proof.
  intros Hall HQ sku' level'. rewrite lookup_insert.
  case_decide; [intros [= <-]; exact HQ | apply Hall].
Qed.

Lemma all_levels_empty (Q : Z -> Prop) : all_levels Q init.
Proof. intros sku level. unfold init. rewrite lookup_empty. discriminate. Qed.

Lemma set_stock_pair_bounded p stock :
  all_levels (fun v => 0 <= v <= 999) stock ->
  all_levels (fun v => 0 <= v <= 999) (set_stock_pair p stock).2.
Proof.
  intros Hall.
  destruct (set_stock_pair_effect p stock) as [-> | [(n & Hn & ->) | ->]];
    simpl; auto using all_levels_insert.
Qed.

Lemma order_pair_bounded order_ref p stock :
  all_levels (fun v => 0 <= v <= 999) stock ->
  all_levels (fun v => 0 <= v <= 999) (order_pair order_ref p stock).2.
Proof.
  intros Hall.
  destruct (order_pair_effect order_ref p stock)
    as [-> | [(level & n & Hl & Hn & ->) | [e ->]]]; simpl; auto.
  apply all_levels_insert; auto. specialize (Hall _ _ Hl). simpl in Hall. lia.
Qed.

Lemma set_stock_pair_nonneg p stock :
  all_levels (Z.le 0) stock -> all_levels (Z.le 0) (set_stock_pair p stock).2.
Proof.
  intros Hall.
  destruct (set_stock_pair_effect p stock) as [-> | [(n & Hn & ->) | ->]];
    simpl; auto.
  apply all_levels_insert; auto. lia.
Qed.

Lemma add_stock_pair_nonneg p stock :
  all_levels (Z.le 0) stock -> all_levels (Z.le 0) (add_stock_pair p stock).2.
Proof.
  intros Hall.
  destruct (add_stock_pair_effect p stock)
    as [-> | [(level & n & Hl & Hn & ->) | [e ->]]]; simpl; auto.
  apply all_levels_insert; auto. specialize (Hall _ _ Hl). simpl in Hall. lia.
Qed.

Lemma order_pair_nonneg order_ref p stock :
  all_levels (Z.le 0) stock ->
  all_levels (Z.le 0) (order_pair order_ref p stock).2.
Proof.
  intros Hall.
  destruct (order_pair_effect order_ref p stock)
    as [-> | [(level & n & Hl & Hn & ->) | [e ->]]]; simpl; auto.
  apply all_levels_insert; auto. lia.
Qed.

Lemma process_command_nonneg instruction stock :
  all_levels (Z.le 0) stock ->
  all_levels (Z.le 0) (process_command instruction stock).2.
Proof.
  apply process_command_inv;
    auto using set_stock_pair_nonneg, add_stock_pair_nonneg, order_pair_nonneg.
Qed.

(** ** Keys *)

Lemma set_stock_pair_dom p stock :
  dom stock ⊆ dom (set_stock_pair p stock).2.
Proof.
  destruct (set_stock_pair_effect p stock) as [-> | [(n & Hn & ->) | ->]];
    simpl; try reflexivity.
  apply dom_insert_subseteq.
Qed.

Lemma add_stock_pair_dom p stock :
  dom (add_stock_pair p stock).2 = dom stock.
Proof.
  destruct (add_stock_pair_effect p stock)
    as [-> | [(level & n & Hl & Hn & ->) | [e ->]]]; simpl; try reflexivity.
  apply dom_insert_lookup_L. eauto.
Qed.

Lemma order_pair_dom order_ref p stock :
  dom (order_pair order_ref p stock).2 = dom stock.
Proof.
  destruct (order_pair_effect order_ref p stock)
    as [-> | [(level & n & Hl & Hn & ->) | [e ->]]]; simpl; try reflexivity.
  apply dom_insert_lookup_L. eauto.
Qed.

(** ** Pairing of the argument tokens *)

Lemma list_pair_ind {A} (Q : list A -> Prop) :
  Q [] -> (forall x, Q [x]) -> (forall x y l, Q l -> Q (x :: y :: l)) ->
  forall l, Q l.
Proof.
  intros Hnil Hone Hstep.
  assert (H : forall l, Q l /\ forall x, Q (x :: l)).
  { induction l as [|y l [IH1 IH2]]; split; auto. }
  intros l. apply H.
Qed.

Lemma step2_cons {A} (x : A) l : step2 (x :: l) = x :: step2 (drop 1 l).
Proof. destruct l; reflexivity. Qed.

Lemma pairs_of_nil : pairs_of [] = [].
Proof. reflexivity. Qed.

Lemma pairs_of_one x : pairs_of [x] = [].
Proof. reflexivity. Qed.

Lemma pairs_of_cons x y l : pairs_of (x :: y :: l) = (x, y) :: pairs_of l.
Proof.
  unfold pairs_of, slice_step2. simpl drop.
  rewrite (step2_cons y l). reflexivity.
Qed.

Lemma pairs_of_app pre l :
  Nat.Even (length pre) ->
  pairs_of (pre ++ l) = (pairs_of pre ++ pairs_of l)%list.
Proof.
  induction pre as [| x | x y pre IH] using list_pair_ind; intros Heven.
  - reflexivity.
  - destruct Heven as [k Hk]. simpl in Hk. lia.
  - simpl app. rewrite !pairs_of_cons, IH; [reflexivity|].
    destruct Heven as [k Hk]. simpl in Hk. exists (k - 1)%nat. lia.
Qed.

Lemma pairs_of_lookup parts i sku amount :
  pairs_of parts !! i = Some (sku, amount)
  <-> parts !! (2 * i)%nat = Some sku /\ parts !! (2 * i + 1)%nat = Some amount.
Proof.
  revert i.
  induction parts as [| x | x y parts IH] using list_pair_ind; intros i.
  - rewrite pairs_of_nil, !lookup_nil.
    split; [discriminate | intros [? _]; discriminate].
  - rewrite pairs_of_one, lookup_nil. split; [discriminate|].
    intros [_ H]. replace (2 * i + 1)%nat with (S (2 * i)) in H by lia.
    simpl in H. rewrite lookup_nil in H. discriminate.
  - rewrite pairs_of_cons. destruct i as [|i].
    + simpl. split; [intros [= -> ->]; auto | intros [[= ->] [= ->]]; auto].
    + replace (2 * S i)%nat with (S (S (2 * i))) by lia.
      replace (S (S (2 * i)) + 1)%nat with (S (S (2 * i + 1))) by lia.
      simpl. apply IH.
Qed.

(** The slices of [process_order] are those of the other two handlers,
    taken after the order reference. *)
Lemma order_slices order_ref parts :
  zip (slice_step2 1 (order_ref :: parts)) (slice_step2 2 (order_ref :: parts))
  = pairs_of parts.
Proof. reflexivity. Qed.

(** ** The loops *)

Lemma for_each_cons {A} (body : A -> M unit) x l stock :
  for_each (x :: l) body stock
  = match body x stock with
    | (Return _, stock') => for_each l body stock'
    | (Raise e, stock') => (Raise e, stock')
    end.
Proof. reflexivity. Qed.

Lemma for_each_app {A} (body : A -> M unit) l1 l2 stock :
  for_each (l1 ++ l2) body stock
  = match for_each l1 body stock with
    | (Return _, stock') => for_each l2 body stock'
    | (Raise e, stock') => (Raise e, stock')
    end.
Proof.
  revert stock. induction l1 as [|x l1 IH]; intros stock; simpl; [reflexivity|].
  unfold bind. destruct (body x stock) as [[[]|e] stock']; auto.
Qed.

(** A loop that raises did so at some element, after the loop over the
    elements before it had completed. *)
Lemma for_each_Raise {A} (body : A -> M unit) l stock e stock' :
  for_each l body stock = (Raise e, stock') ->
  exists pre x rest stock1,
    l = (pre ++ x :: rest)%list
    /\ for_each pre body stock = (Return tt, stock1)
    /\ body x stock1 = (Raise e, stock').
Proof.
  revert stock. induction l as [|x l IH]; intros stock; simpl.
  - unfold ret. discriminate.
  - unfold bind. destruct (body x stock) as [[[]|e0] stock0] eqn:Hx.
    + intros H. destruct (IH _ H) as (pre & y & rest & stock1 & -> & Hpre & Hy).
      exists (x :: pre), y, rest, stock1. repeat split; auto.
      simpl. unfold bind. rewrite Hx. exact Hpre.
    + intros [= -> ->]. exists [], x, l, stock. repeat split; auto.
Qed.

(** ** One pair, case by case *)

Lemma set_stock_pair_valid sku amount n stock :
  validate_sku sku = Return tt -> validate_amount amount = Return tt ->
  int amount = Return n ->
  set_stock_pair (sku, amount) stock = (Return tt, <[sku := n]> stock).
Proof.
  intros Hs Ha Hn. unfold set_stock_pair. unfold_M. rewrite Hs, Ha, Hn.
  reflexivity.
Qed.

Lemma set_stock_pair_skip sku amount e stock :
  validate_sku sku = Raise (StockError e)
  \/ validate_amount amount = Raise (StockError e) ->
  set_stock_pair (sku, amount) stock = (Return tt, stock).
Proof.
  intros H. unfold set_stock_pair. unfold_M.
  destruct (validate_sku_outcome sku) as [Hs | Hs]; rewrite Hs; [|reflexivity].
  destruct H as [H | H]; [congruence|]. rewrite H. reflexivity.
Qed.

Lemma add_stock_pair_absent sku amount stock :
  validate_sku sku = Return tt -> validate_amount amount = Return tt ->
  stock !! sku = None ->
  add_stock_pair (sku, amount) stock
  = (Raise (StockError (SkuNotFoundAdd sku)), stock).
Proof.
  intros Hs Ha Hl. unfold add_stock_pair. unfold_M. rewrite Hs, Ha.
  rewrite bool_decide_eq_false_2; [reflexivity|].
  rewrite Hl. intros [? ?]; discriminate.
Qed.

Lemma order_pair_insufficient order_ref sku amount n level stock :
  validate_sku sku = Return tt -> validate_amount amount = Return tt ->
  int amount = Return n -> stock !! sku = Some level -> level < n ->
  order_pair order_ref (sku, amount) stock
  = (Raise (StockError (InsufficientStock order_ref sku)), stock).
Proof.
  intros Hs Ha Hn Hl Hlt. unfold order_pair. unfold_M. rewrite Hs, Ha.
  rewrite bool_decide_eq_true_2 by (rewrite Hl; eauto). simpl.
  rewrite Hl, Hn. apply Z.ltb_lt in Hlt. rewrite Hlt. reflexivity.
Qed.

(** The only [StockError]s that leave the body of the order loop are the
    two domain failures, and the table is then as it was. *)
Lemma order_pair_StockError order_ref sku amount stock e stock' :
  order_pair order_ref (sku, amount) stock = (Raise (StockError e), stock') ->
  stock' = stock
  /\ validate_sku sku = Return tt /\ validate_amount amount = Return tt
  /\ ((e = SkuNotFoundOrder sku /\ stock !! sku = None)
      \/ (exists level n,
            e = InsufficientStock order_ref sku
            /\ stock !! sku = Some level /\ int amount = Return n
            /\ level < n)).
Proof.
  unfold order_pair.
  destruct (validate_outcome sku amount stock)
    as [(Hv & Hs & Ha)|[[e0 Hv]|[Hv _]]];
    unfold try_except_StockError_else; rewrite Hv;
    [| unfold continue, ret; discriminate | discriminate].
  destruct (validate_amount_Return _ Ha) as (n & Hn & Hr).
  unfold_M. destruct (stock !! sku) as [level|] eqn:Hl; simpl.
  - rewrite ?Hl, ?Hn. destruct (level <? n) eqn:Hlt.
    + intros [= <- <-]. apply Z.ltb_lt in Hlt.
      repeat split; auto. right. exists level, n. auto.
    + rewrite Hl. discriminate.
  - intros [= <- <-]. repeat split; auto.
Qed.

(** ** The handlers on an argument list *)

Lemma process_order_cons order_ref parts stock :
  process_order (order_ref :: parts) stock
  = for_each (pairs_of parts) (order_pair order_ref) stock.
Proof. reflexivity. Qed.

Lemma pairs_of_take parts k :
  pairs_of (take (2 * k) parts) = take k (pairs_of parts).
Proof.
  revert k.
  induction parts as [| x | x y parts IH] using list_pair_ind; intros k.
  - rewrite take_nil, pairs_of_nil, take_nil. reflexivity.
  - destruct k as [|k]; [reflexivity|].
    replace (2 * S k)%nat with (S (S (2 * k))) by lia. reflexivity.
  - destruct k as [|k]; [reflexivity|].
    replace (2 * S k)%nat with (S (S (2 * k))) by lia.
    change (take (S (S (2 * k))) (x :: y :: parts))
      with (x :: y :: take (2 * k) parts).
    rewrite !pairs_of_cons, IH. reflexivity.
Qed.

Lemma split_whitespace instruction :
  PyStr.forallb_str PyStr.isspace instruction = true ->
  PyStr.split instruction = [].
Proof.
  unfold PyStr.split. induction instruction as [|c s IH]; simpl; [reflexivity|].
  intros [Hc Hs]%andb_true_iff. rewrite Hc. auto.
Qed.

Lemma order_pair_absent order_ref sku amount stock :
  validate_sku sku = Return tt -> validate_amount amount = Return tt ->
  stock !! sku = None ->
  order_pair order_ref (sku, amount) stock
  = (Raise (StockError (SkuNotFoundOrder sku)), stock).
Proof.
  intros Hs Ha Hl. unfold order_pair. unfold_M. rewrite Hs, Ha.
  rewrite bool_decide_eq_false_2; [reflexivity|].
  rewrite Hl. intros [? ?]; discriminate.
Qed.

Lemma order_pair_sufficient order_ref sku amount n level stock :
  validate_sku sku = Return tt -> validate_amount amount = Return tt ->
  int amount = Return n -> stock !! sku = Some level -> n <= level ->
  order_pair order_ref (sku, amount) stock
  = (Return tt, <[sku := level - n]> stock).
Proof.
  intros Hs Ha Hn Hl Hle. unfold order_pair. unfold_M. rewrite Hs, Ha.
  rewrite bool_decide_eq_true_2 by (rewrite Hl; eauto). simpl.
  rewrite Hl, Hn. apply Z.ltb_ge in Hle. rewrite Hle, Hl. reflexivity.
Qed.

(** The pairs after a prefix that returned are processed from the table
    the prefix left. *)
Lemma process_order_after order_ref pre parts stock stock' :
  Nat.Even (length pre) ->
  process_order (order_ref :: pre) stock = (Return tt, stock') ->
  process_order (order_ref :: pre ++ parts) stock
  = process_order (order_ref :: parts) stock'.
Proof.
  intros Heven Hpre. rewrite !process_order_cons in *.
  rewrite pairs_of_app by exact Heven. rewrite for_each_app, Hpre.
  reflexivity.
Qed.

Lemma process_set_stock_after pre parts stock stock' :
  Nat.Even (length pre) ->
  process_set_stock pre stock = (Return tt, stock') ->
  process_set_stock (pre ++ parts) stock = process_set_stock parts stock'.
Proof.
  intros Heven Hpre. unfold process_set_stock in *.
  fold (pairs_of (pre ++ parts)). fold (pairs_of pre) in Hpre.
  fold (pairs_of parts).
  rewrite pairs_of_app by exact Heven. rewrite for_each_app, Hpre.
  reflexivity.
Qed.

Lemma process_add_stock_after pre parts stock stock' :
  Nat.Even (length pre) ->
  process_add_stock pre stock = (Return tt, stock') ->
  process_add_stock (pre ++ parts) stock = process_add_stock parts stock'.
Proof.
  intros Heven Hpre. unfold process_add_stock in *.
  fold (pairs_of (pre ++ parts)). fold (pairs_of pre) in Hpre.
  fold (pairs_of parts).
  rewrite pairs_of_app by exact Heven. rewrite for_each_app, Hpre.
  reflexivity.
Qed.

(** ** Properties of the interpreter *)

(** C1, as stated, fails: after [set-stock AB-6 999] and
    [add-stock AB-6 1] from the empty table, the level stored for AB-6
    is 1000, outside [0, 999]. *)
Lemma add_stock_exceeds_ceiling :
  run_all ["set-stock AB-6 999"; "add-stock AB-6 1"] init !! "AB-6" = Some 1000
  /\ ~ all_levels (fun v => 0 <= v <= 999)
         (run_all ["set-stock AB-6 999"; "add-stock AB-6 1"] init).
Proof.
  assert (H : run_all ["set-stock AB-6 999"; "add-stock AB-6 1"] init !! "AB-6"
              = Some 1000) by (vm_compute; reflexivity).
  split; [exact H|]. intros Hall. specialize (Hall _ _ H). simpl in Hall. lia.
Qed.

(** C1 (amended): for every sequence of instructions processed from the
    empty table, every stored level is at least 0; the handlers of
    set-stock and order preserve the bound [0, 999] on all stored
    levels, and the handler of add-stock preserves the lower bound 0. *)
Theorem stock_levels_bounds :
  (forall instructions, all_levels (Z.le 0) (run_all instructions init))
  /\ (forall parts stock,
        all_levels (fun v => 0 <= v <= 999) stock ->
        all_levels (fun v => 0 <= v <= 999) (process_set_stock parts stock).2)
  /\ (forall parts stock,
        all_levels (fun v => 0 <= v <= 999) stock ->
        all_levels (fun v => 0 <= v <= 999) (process_order parts stock).2)
  /\ (forall parts stock,
        all_levels (Z.le 0) stock ->
        all_levels (Z.le 0) (process_add_stock parts stock).2).
Proof.
  split; [|split; [|split]].
  - intros instructions. apply run_all_inv.
    + apply set_stock_pair_nonneg.
    + apply add_stock_pair_nonneg.
    + apply order_pair_nonneg.
    + apply all_levels_empty.
  - intros parts stock. apply for_each_inv. apply set_stock_pair_bounded.
  - intros parts stock. unfold process_order, bind, lift.
    destruct (getitem parts 0) as [order_ref|e]; simpl; auto.
    apply for_each_inv. apply order_pair_bounded.
  - intros parts stock. apply for_each_inv. apply add_stock_pair_nonneg.
Qed.

Lemma stock_levels_bounds_witness :
  all_levels (Z.le 0)
    (run_all ["set-stock AB-6 999"; "add-stock AB-6 1"] init)
  /\ all_levels (fun v => 0 <= v <= 999)
       (process_order ["ON-1"; "AB-6"; "5"] (<["AB-6" := 10]> init)).2.
Proof.
  destruct stock_levels_bounds as (Hrun & _ & Horder & _).
  split; [apply Hrun|]. apply Horder.
  apply all_levels_insert; [apply all_levels_empty | lia].
Defined.

(** C2: in an order, the pairs are applied one after the other and a
    domain failure stops the instruction without undoing anything.
    With no pair, [process_order] returns and leaves the table as it is.
    After pairs that have been processed, a well-formed pair whose level
    covers the amount returns with the level lowered by the amount; a
    well-formed pair whose SKU is absent, or whose level is below the
    amount, makes [process_order] raise the not-found or the
    insufficient-stock error and leave the table that the earlier pairs
    produced, whatever pairs follow.  Conversely, whenever
    [process_order] fails with a [StockError], it is such a failure of
    one pair, and the table left is the one that [process_order]
    produces, returning normally, on the argument list cut just before
    that pair. *)
Theorem order_failure_keeps_earlier_decrements :
  (forall order_ref stock,
     process_order [order_ref] stock = (Return tt, stock))
  /\ (forall order_ref pre sku amount n level stock stock',
        Nat.Even (length pre) ->
        process_order (order_ref :: pre) stock = (Return tt, stock') ->
        validate_sku sku = Return tt -> validate_amount amount = Return tt ->
        int amount = Return n -> stock' !! sku = Some level -> n <= level ->
        process_order (order_ref :: pre ++ [sku; amount]) stock
        = (Return tt, <[sku := level - n]> stock'))
  /\ (forall order_ref pre sku amount rest stock stock',
        Nat.Even (length pre) ->
        process_order (order_ref :: pre) stock = (Return tt, stock') ->
        validate_sku sku = Return tt -> validate_amount amount = Return tt ->
        stock' !! sku = None ->
        process_order (order_ref :: pre ++ sku :: amount :: rest) stock
        = (Raise (StockError (SkuNotFoundOrder sku)), stock'))
  /\ (forall order_ref pre sku amount n level rest stock stock',
        Nat.Even (length pre) ->
        process_order (order_ref :: pre) stock = (Return tt, stock') ->
        validate_sku sku = Return tt -> validate_amount amount = Return tt ->
        int amount = Return n -> stock' !! sku = Some level -> level < n ->
        process_order (order_ref :: pre ++ sku :: amount :: rest) stock
        = (Raise (StockError (InsufficientStock order_ref sku)), stock'))
  /\ (forall parts stock e stock',
        process_order parts stock = (Raise (StockError e), stock') ->
        exists order_ref k sku amount,
          parts !! 0%nat = Some order_ref
          /\ parts !! (1 + 2 * k)%nat = Some sku
          /\ parts !! (2 + 2 * k)%nat = Some amount
          /\ process_order (take (1 + 2 * k) parts) stock
             = (Return tt, stock')
          /\ ((e = SkuNotFoundOrder sku /\ stock' !! sku = None)
              \/ (exists level n,
                    e = InsufficientStock order_ref sku
                    /\ stock' !! sku = Some level /\ int amount = Return n
                    /\ level < n))).
Proof.
  split; [reflexivity|]. split; [|split; [|split]].
  - intros order_ref pre sku amount n level stock stock'
      Heven Hpre Hs Ha Hn Hl Hle.
    rewrite (process_order_after _ _ _ _ _ Heven Hpre).
    rewrite process_order_cons, pairs_of_cons, for_each_cons.
    rewrite (order_pair_sufficient _ _ _ _ _ _ Hs Ha Hn Hl Hle). reflexivity.
  - intros order_ref pre sku amount rest stock stock' Heven Hpre Hs Ha Hl.
    rewrite (process_order_after _ _ _ _ _ Heven Hpre).
    rewrite process_order_cons, pairs_of_cons, for_each_cons.
    rewrite (order_pair_absent _ _ _ _ Hs Ha Hl). reflexivity.
  - intros order_ref pre sku amount n level rest stock stock'
      Heven Hpre Hs Ha Hn Hl Hlt.
    rewrite (process_order_after _ _ _ _ _ Heven Hpre).
    rewrite process_order_cons, pairs_of_cons, for_each_cons.
    rewrite (order_pair_insufficient _ _ _ _ _ _ Hs Ha Hn Hl Hlt). reflexivity.
  - intros parts stock e stock'.
    destruct parts as [|order_ref parts]; [discriminate|].
    rewrite process_order_cons. intros H.
    destruct (for_each_Raise _ _ _ _ _ H)
      as (pre & [sku amount] & rest & stock1 & Hl & Hpre & Hp).
    destruct (order_pair_StockError _ _ _ _ _ _ Hp) as (-> & _ & _ & He).
    assert (Hk : pairs_of parts !! length pre = Some (sku, amount)).
    { rewrite Hl. rewrite lookup_app_r by lia.
      replace (length pre - length pre)%nat with 0%nat by lia. reflexivity. }
    apply pairs_of_lookup in Hk as [Hsku Hamount].
    exists order_ref, (length pre), sku, amount.
    split; [reflexivity|]. split; [exact Hsku|].
    split.
    { replace (2 * length pre + 1)%nat with (S (2 * length pre)) in Hamount
        by lia.
      exact Hamount. }
    split; [|exact He].
    change (take (1 + 2 * length pre) (order_ref :: parts))
      with (order_ref :: take (2 * length pre) parts).
    rewrite process_order_cons, pairs_of_take, Hl.
    rewrite take_app_length. exact Hpre.
Qed.

(** The order ON-1 of 20 AB-6, 300 CD-3 and 1 AB-6 from 100 AB-6 and 50
    CD-3: 20 AB-6 are taken, the order fails at CD-3 and the last pair
    is not applied; and the order ON-2 of an unknown SKU after AB-6. *)
Lemma order_failure_keeps_earlier_decrements_witness :
  process_order ["ON-1"; "AB-6"; "20"; "CD-3"; "300"; "AB-6"; "1"]
    (<["AB-6" := 100]> (<["CD-3" := 50]> init))
  = (Raise (StockError (InsufficientStock "ON-1" "CD-3")),
     <["AB-6" := 100 - 20]> (<["AB-6" := 100]> (<["CD-3" := 50]> init)))
  /\ process_order ["ON-2"; "AB-6"; "20"; "ZF-9"; "1"; "AB-6"; "1"]
       (<["AB-6" := 100]> (<["CD-3" := 50]> init))
     = (Raise (StockError (SkuNotFoundOrder "ZF-9")),
        <["AB-6" := 100 - 20]> (<["AB-6" := 100]> (<["CD-3" := 50]> init)))
  /\ exists order_ref k sku amount,
       ["ON-1"; "AB-6"; "20"; "CD-3"; "300"; "AB-6"; "1"] !! 0%nat
       = Some order_ref
       /\ ["ON-1"; "AB-6"; "20"; "CD-3"; "300"; "AB-6"; "1"] !! (1 + 2 * k)%nat
          = Some sku
       /\ ["ON-1"; "AB-6"; "20"; "CD-3"; "300"; "AB-6"; "1"] !! (2 + 2 * k)%nat
          = Some amount
       /\ process_order
            (take (1 + 2 * k)
               ["ON-1"; "AB-6"; "20"; "CD-3"; "300"; "AB-6"; "1"])
            (<["AB-6" := 100]> (<["CD-3" := 50]> init))
          = (Return tt, <["AB-6" := 80]> (<["CD-3" := 50]> init))
       /\ ((InsufficientStock "ON-1" "CD-3" = SkuNotFoundOrder sku
            /\ <["AB-6" := 80]> (<["CD-3" := 50]> init) !! sku = None)
           \/ (exists level n,
                 InsufficientStock "ON-1" "CD-3"
                 = InsufficientStock order_ref sku
                 /\ <["AB-6" := 80]> (<["CD-3" := 50]> init) !! sku
                    = Some level
                 /\ int amount = Return n
                 /\ level < n)).
Proof.
  destruct order_failure_keeps_earlier_decrements
    as (Hbase & Hstep & Habsent & Hshort & Hback).
  assert (Hfirst : forall order_ref,
            process_order [order_ref; "AB-6"; "20"]
              (<["AB-6" := 100]> (<["CD-3" := 50]> init))
            = (Return tt,
               <["AB-6" := 100 - 20]>
                 (<["AB-6" := 100]> (<["CD-3" := 50]> init)))).
  { intros order_ref.
    apply (Hstep order_ref [] "AB-6" "20" 20 100);
      [exists 0%nat; reflexivity | apply Hbase | reflexivity ..| lia]. }
  split; [|split].
  - apply (Hshort "ON-1" ["AB-6"; "20"] "CD-3" "300" 300 50 ["AB-6"; "1"]);
      [exists 1%nat; reflexivity | apply Hfirst | reflexivity ..| lia].
  - apply (Habsent "ON-2" ["AB-6"; "20"] "ZF-9" "1" ["AB-6"; "1"]);
      [exists 1%nat; reflexivity | apply Hfirst | reflexivity ..].
  - apply (Hback ["ON-1"; "AB-6"; "20"; "CD-3"; "300"; "AB-6"; "1"]
             (<["AB-6" := 100]> (<["CD-3" := 50]> init))).
    vm_compute. reflexivity.
Defined.

(** C3: on an instruction line that is empty or made of whitespace only,
    [process_command] leaves the table as it is, but what it raises is
    an [IndexError] (from [parts[0]] on the empty token list), not the
    [StockError] of an unknown command. *)
Theorem empty_instruction_raises_IndexError instruction stock :
  PyStr.forallb_str PyStr.isspace instruction = true ->
  process_command instruction stock = (Raise IndexError, stock).
Proof.
  intros Hspace. unfold process_command.
  rewrite (split_whitespace _ Hspace). reflexivity.
Qed.

Lemma empty_instruction_raises_IndexError_witness :
  process_command "" init = (Raise IndexError, init)
  /\ process_command "   " init = (Raise IndexError, init).
Proof.
  split; apply empty_instruction_raises_IndexError; reflexivity.
Defined.

(** C4: [validate_sku] accepts a well-formed SKU followed by a newline:
    the [$] of the pattern also matches just before a final newline, so
    the match is not a full-string match. *)
Theorem validate_sku_accepts_trailing_newline :
  validate_sku ("AB-6" ++ newline) = Return tt
  /\ validate_sku ("XYZ-123" ++ newline) = Return tt.
Proof. split; vm_compute; reflexivity. Qed.

(** C5: a pair whose amount fails validation is not always skipped.
    On an amount that [isdigit] accepts and [int] refuses (a superscript
    two, or a string of more than 4300 digits), [validate_amount] raises
    a [ValueError], which [except StockError] does not catch: the
    set-stock instruction ends there and the well-formed pair after it
    is not applied, while after an amount such as 1000, rejected with a
    [StockError], it is. *)
Theorem set_stock_aborts_on_refused_amount stock :
  process_command ("set-stock AB-6 " ++ superscript_two ++ " CD-3 5") stock
  = (Raise ValueError, stock)
  /\ process_set_stock ["AB-6"; superscript_two; "CD-3"; "5"] stock
     = (Raise ValueError, stock)
  /\ process_set_stock ["AB-6"; zeros 4301; "CD-3"; "5"] stock
     = (Raise ValueError, stock)
  /\ process_command "set-stock AB-6 1000 CD-3 5" stock
     = (Return tt, <["CD-3" := 5]> stock).
Proof. repeat split; vm_compute; reflexivity. Qed.

(** C6: in an add-stock instruction, a well-formed pair whose SKU is
    absent from the table makes [process_add_stock] fail with the
    SKU-not-found error when the pairs before it have been processed;
    no later pair is processed, and the SKU is still absent. *)
Theorem add_stock_unseeded_sku pre sku amount rest stock stock' :
  Nat.Even (length pre) ->
  process_add_stock pre stock = (Return tt, stock') ->
  validate_sku sku = Return tt -> validate_amount amount = Return tt ->
  stock !! sku = None ->
  process_add_stock (pre ++ sku :: amount :: rest) stock
  = (Raise (StockError (SkuNotFoundAdd sku)), stock')
  /\ stock' !! sku = None.
Proof.
  intros Heven Hpre Hs Ha Habsent.
  assert (Hdom : dom stock' = dom stock).
  { replace stock' with (process_add_stock pre stock).2
      by (rewrite Hpre; reflexivity).
    apply (for_each_inv (fun s => dom s = dom stock)); [|reflexivity].
    intros p s <-. apply add_stock_pair_dom. }
  assert (Habsent' : stock' !! sku = None).
  { apply not_elem_of_dom. rewrite Hdom. apply not_elem_of_dom. exact Habsent. }
  split; [|exact Habsent'].
  unfold process_add_stock in *.
  fold (pairs_of (pre ++ sku :: amount :: rest)). fold (pairs_of pre) in Hpre.
  rewrite pairs_of_app by exact Heven.
  rewrite for_each_app, Hpre, pairs_of_cons, for_each_cons.
  rewrite (add_stock_pair_absent _ _ _ Hs Ha Habsent'). reflexivity.
Qed.

Lemma add_stock_unseeded_sku_witness :
  process_add_stock ["AB-6"; "20"; "ZF-9"; "5"; "AB-6"; "1"]
    (<["AB-6" := 100]> init)
  = (Raise (StockError (SkuNotFoundAdd "ZF-9")), <["AB-6" := 120]> init)
  /\ <["AB-6" := 120]> init !! "ZF-9" = None.
Proof.
  apply (add_stock_unseeded_sku ["AB-6"; "20"] "ZF-9" "5" ["AB-6"; "1"]).
  - exists 1%nat. reflexivity.
  - vm_compute. reflexivity.
  - reflexivity.
  - reflexivity.
  - vm_compute. reflexivity.
Defined.

(** C7: from a table whose levels are all non-negative, the levels are
    all non-negative after any [process_command] call; and in an order,
    a well-formed pair whose amount exceeds the current level of its SKU
    (the pairs before it having been processed) is reported as
    insufficient stock and changes nothing. *)
Theorem order_never_negative stock :
  all_levels (Z.le 0) stock ->
  (forall instruction,
     all_levels (Z.le 0) (process_command instruction stock).2)
  /\ (forall order_ref pre sku amount rest stock' level n,
        Nat.Even (length pre) ->
        process_order (order_ref :: pre) stock = (Return tt, stock') ->
        validate_sku sku = Return tt -> validate_amount amount = Return tt ->
        int amount = Return n -> stock' !! sku = Some level -> level < n ->
        process_order (order_ref :: pre ++ sku :: amount :: rest) stock
        = (Raise (StockError (InsufficientStock order_ref sku)), stock')).
Proof.
  intros Hnonneg. split.
  - intros instruction. apply process_command_nonneg. exact Hnonneg.
  - intros order_ref pre sku amount rest stock' level n
      Heven Hpre Hs Ha Hn Hl Hlt.
    rewrite process_order_cons in *.
    rewrite pairs_of_app by exact Heven.
    rewrite for_each_app, Hpre, pairs_of_cons, for_each_cons.
    rewrite (order_pair_insufficient _ _ _ _ _ _ Hs Ha Hn Hl Hlt). reflexivity.
Qed.

Lemma order_never_negative_witness :
  all_levels (Z.le 0)
    (process_command "order ON-123 AB-6 150" (<["AB-6" := 100]> init)).2
  /\ process_order ["ON-123"; "AB-6"; "40"; "AB-6"; "61"; "AB-6"; "1"]
       (<["AB-6" := 100]> init)
     = (Raise (StockError (InsufficientStock "ON-123" "AB-6")),
        <["AB-6" := 60]> init).
Proof.
  assert (H : all_levels (Z.le 0) (<["AB-6" := 100]> init))
    by (apply all_levels_insert; [apply all_levels_empty | lia]).
  destruct (order_never_negative _ H) as [Hcmd Horder].
  split; [apply Hcmd|].
  apply (Horder "ON-123" ["AB-6"; "40"] "AB-6" "61" ["AB-6"; "1"]
           (<["AB-6" := 60]> init) 60 61).
  - exists 1%nat. reflexivity.
  - vm_compute. reflexivity.
  - reflexivity.
  - reflexivity.
  - reflexivity.
  - vm_compute. reflexivity.
  - lia.
Defined.

(** An instruction whose tokens are [set-stock X N], with [X] and [N]
    passing validation, sets the level of [X] to the value of [N]. *)
Lemma set_stock_tokens instruction X N n stock :
  PyStr.split instruction = ["set-stock"; X; N] ->
  validate_sku X = Return tt -> validate_amount N = Return tt ->
  int N = Return n ->
  exec stock instruction = <[X := n]> stock.
Proof.
  intros Hsplit Hs Ha Hn. unfold exec.
  replace (process_command instruction stock)
    with (for_each (pairs_of [X; N]) set_stock_pair stock)
    by (unfold process_command; rewrite Hsplit; reflexivity).
  rewrite pairs_of_cons, for_each_cons.
  rewrite (set_stock_pair_valid _ _ _ _ Hs Ha Hn). reflexivity.
Qed.

(** C8: for a SKU [X] of the grammar and an amount [N] that passes
    validation, processing the instruction [set-stock X N] twice in
    succession gives the same table as processing it once, and in it
    the level stored for [X] is the value of [N]. *)
Theorem set_stock_idempotent X N stock :
  sku_grammar X -> validate_amount N = Return tt ->
  exists n,
    int N = Return n
    /\ exec stock ("set-stock " ++ X ++ " " ++ N) !! X = Some n
    /\ exec (exec stock ("set-stock " ++ X ++ " " ++ N))
         ("set-stock " ++ X ++ " " ++ N) !! X = Some n
    /\ exec (exec stock ("set-stock " ++ X ++ " " ++ N))
         ("set-stock " ++ X ++ " " ++ N)
       = exec stock ("set-stock " ++ X ++ " " ++ N).
Proof.
  intros HX Ha.
  destruct (validate_amount_Return _ Ha) as (n & Hn & _).
  destruct (sku_grammar_no_space _ HX) as [HX1 HX2].
  destruct (valid_amount_no_space _ Ha) as [HN1 HN2].
  assert (Hs : validate_sku X = Return tt) by (apply validate_sku_spec; auto).
  pose proof (split_set_stock_line X N HX1 HX2 HN1 HN2) as Hsplit.
  exists n. rewrite !(set_stock_tokens _ X N n _ Hsplit Hs Ha Hn).
  rewrite insert_insert_eq, lookup_insert_eq. auto.
Qed.

Lemma set_stock_idempotent_witness :
  exists n,
    int "100" = Return n
    /\ exec (<["AB-6" := 7]> init) ("set-stock " ++ "AB-6" ++ " " ++ "100")
         !! "AB-6" = Some n
    /\ exec (exec (<["AB-6" := 7]> init)
               ("set-stock " ++ "AB-6" ++ " " ++ "100"))
         ("set-stock " ++ "AB-6" ++ " " ++ "100") !! "AB-6" = Some n
    /\ exec (exec (<["AB-6" := 7]> init)
               ("set-stock " ++ "AB-6" ++ " " ++ "100"))
         ("set-stock " ++ "AB-6" ++ " " ++ "100")
       = exec (<["AB-6" := 7]> init) ("set-stock " ++ "AB-6" ++ " " ++ "100").
Proof.
  apply set_stock_idempotent.
  - exists "AB", "6". repeat split; simpl; lia.
  - reflexivity.
Defined.

(** C9: the instruction made of the single token [order] makes
    [process_order] read the first element of an empty list:
    [process_command] raises an [IndexError], not a [StockError], and
    the table is unchanged. *)
Theorem order_without_reference_raises_IndexError stock :
  process_order [] stock = (Raise IndexError, stock)
  /\ process_command "order" stock = (Raise IndexError, stock).
Proof. split; reflexivity. Qed.

(** C10: every SKU that is a key of the table before a [process_command]
    call is a key of the table after it, whatever the outcome. *)
Theorem no_key_is_removed instruction stock :
  dom stock ⊆ dom (process_command instruction stock).2.
Proof.
  apply (process_command_inv (fun s => dom stock ⊆ dom s));
    [| | |reflexivity].
  - intros p s Hs. etransitivity; [exact Hs | apply set_stock_pair_dom].
  - intros p s Hs. rewrite add_stock_pair_dom. exact Hs.
  - intros order_ref p s Hs. rewrite order_pair_dom. exact Hs.
Qed.

(** * Further properties of the program *)

(** ** The two validators, exactly *)

Lemma isdecimal_isdigit_char c :
  PyStr.isdecimal c = true -> PyStr.isdigit_char c = true.
Proof. unfold PyStr.isdigit_char. intros ->. reflexivity. Qed.

Lemma isdecimal_digit_value c :
  PyStr.isdecimal c = true -> 0 <= PyStr.digit_value c <= 9.
Proof.
  unfold PyStr.isdecimal, PyStr.in_range, PyStr.digit_value.
  intros [H1 H2]%andb_true_iff. apply N.leb_le in H1, H2. lia.
Qed.

Lemma int_acc_lower acc s :
  0 <= acc -> PyStr.forallb_str PyStr.isdecimal s = true ->
  acc <= PyStr.int_acc acc s.
Proof.
  revert acc. induction s as [|c s IH]; intros acc Hacc; simpl; [lia|].
  intros [Hc Hs]%andb_true_iff. apply isdecimal_digit_value in Hc.
  specialize (IH (10 * acc + PyStr.digit_value c) ltac:(lia) Hs). lia.
Qed.

Lemma decimal_isdigit s :
  s <> "" -> PyStr.forallb_str PyStr.isdecimal s = true ->
  PyStr.isdigit s = true.
Proof.
  intros Hne Hall. destruct s as [|c s]; [congruence|].
  exact (forallb_str_impl _ _ _ isdecimal_isdigit_char Hall).
Qed.

(** X1: [validate_sku] returns or raises the invalid-format error for
    its argument, and it returns exactly on the strings of the SKU
    grammar and on those strings followed by one newline. *)
Theorem validate_sku_accepts_exactly sku :
  (validate_sku sku = Return tt
   \/ validate_sku sku = Raise (StockError (InvalidSkuFormat sku)))
  /\ (validate_sku sku = Return tt
      <-> exists g, sku_grammar g /\ (sku = g \/ sku = g ++ newline)).
Proof.
  split; [apply validate_sku_outcome|].
  rewrite validate_sku_spec. split.
  - intros [H | (g & Hg & ->)]; eauto.
  - intros (g & Hg & [-> | ->]); eauto.
Qed.

Lemma validate_amount_Return_iff amount :
  validate_amount amount = Return tt
  <-> amount <> ""
      /\ PyStr.forallb_str PyStr.isdecimal amount = true
      /\ (N.of_nat (String.length amount) <= int_max_str_digits)%N
      /\ PyStr.int_acc 0 amount <= 999.
Proof.
  unfold validate_amount, int.
  destruct (PyStr.isdigit amount) eqn:Hd; simpl.
  - destruct (PyStr.forallb_str PyStr.isdecimal amount) eqn:Hall.
    + destruct (_ <=? int_max_str_digits)%N eqn:Hlen; simpl.
      * apply N.leb_le in Hlen.
        pose proof (int_acc_lower 0 amount ltac:(lia) Hall) as Hlo.
        apply Z.leb_le in Hlo. rewrite Hlo. simpl.
        destruct (PyStr.int_acc 0 amount <=? 999) eqn:Hhi; simpl.
        -- apply Z.leb_le in Hhi. split; [|reflexivity].
           intros _. repeat split; auto. intros ->. discriminate.
        -- apply Z.leb_gt in Hhi. split; [discriminate|].
           intros (_ & _ & _ & H). lia.
      * apply N.leb_gt in Hlen. split; [discriminate|].
        intros (_ & _ & H & _). lia.
    + split; [discriminate|]. intros (_ & H & _); discriminate.
  - split; [discriminate|].
    intros (Hne & Hall & _). rewrite (decimal_isdigit _ Hne Hall) in Hd.
    discriminate.
Qed.

Lemma validate_amount_ValueError_iff amount :
  validate_amount amount = Raise ValueError
  <-> PyStr.isdigit amount = true
      /\ (PyStr.forallb_str PyStr.isdecimal amount = false
          \/ (int_max_str_digits < N.of_nat (String.length amount))%N).
Proof.
  unfold validate_amount, int.
  destruct (PyStr.isdigit amount) eqn:Hd; simpl.
  - destruct (PyStr.forallb_str PyStr.isdecimal amount) eqn:Hall.
    + destruct (_ <=? int_max_str_digits)%N eqn:Hlen; simpl.
      * apply N.leb_le in Hlen.
        destruct (_ && _); simpl;
          (split; [discriminate | intros [_ [H | H]]; [discriminate | lia]]).
      * apply N.leb_gt in Hlen. split; auto.
    + split; auto.
  - split; [discriminate|]. intros [H _]; discriminate.
Qed.

Lemma validate_amount_ValueError_int amount :
  validate_amount amount = Raise ValueError ->
  PyStr.isdigit amount = true /\ int amount = Raise ValueError.
Proof.
  unfold validate_amount.
  destruct (PyStr.isdigit amount); simpl; [|discriminate].
  destruct (int amount) as [n|e] eqn:Hint.
  - destruct (negb _); discriminate.
  - intros [= ->]. auto.
Qed.

(** X2: for a string of characters below code point 256,
    [validate_amount] returns exactly when the string is non-empty,
    made of the characters 0 to 9, of at most 4300 characters and of a
    decimal value of at most 999; it raises a [ValueError] exactly when
    [isdigit] accepts the string and [int] refuses it (it holds a
    character which is not one of 0 to 9, or it has more than 4300
    characters); on every other string it raises the invalid-format
    error for its argument. *)
Theorem validate_amount_accepts_exactly amount :
  (validate_amount amount = Return tt
   <-> amount <> ""
       /\ PyStr.forallb_str PyStr.isdecimal amount = true
       /\ (N.of_nat (String.length amount) <= int_max_str_digits)%N
       /\ PyStr.int_acc 0 amount <= 999)
  /\ (validate_amount amount = Raise ValueError
      <-> PyStr.isdigit amount = true
          /\ (PyStr.forallb_str PyStr.isdecimal amount = false
              \/ (int_max_str_digits < N.of_nat (String.length amount))%N))
  /\ (validate_amount amount = Return tt
      \/ validate_amount amount = Raise ValueError
      \/ validate_amount amount
         = Raise (StockError (InvalidAmountFormat amount))).
Proof.
  split; [apply validate_amount_Return_iff|].
  split; [apply validate_amount_ValueError_iff|].
  destruct (validate_amount_outcome amount) as [[H _]|[H|H]]; auto.
Qed.

Lemma int_leading_zero amount :
  amount <> "" -> PyStr.forallb_str PyStr.isdecimal amount = true ->
  (N.of_nat (String.length (String "0" amount)) <= int_max_str_digits)%N ->
  int (String "0" amount) = int amount.
Proof.
  intros Hne Hall Hlen.
  assert (Hlen' : (N.of_nat (String.length amount) <= int_max_str_digits)%N)
    by (simpl in Hlen; lia).
  apply N.leb_le in Hlen, Hlen'.
  unfold int. rewrite Hlen, Hlen', (decimal_isdigit _ Hne Hall).
  change (PyStr.isdigit (String "0" amount))
    with (PyStr.isdigit_char "0"
          && PyStr.forallb_str PyStr.isdigit_char amount).
  rewrite (forallb_str_impl _ _ _ isdecimal_isdigit_char Hall).
  simpl PyStr.forallb_str. rewrite Hall. reflexivity.
Qed.

(** X3: a zero in front of an accepted amount of fewer than 4300
    characters gives an accepted amount with the same value, so that the
    bound of [validate_amount] is on the value and not on three
    characters; in front of an accepted amount of 4300 characters it
    gives a string on which [validate_amount] raises a [ValueError]. *)
Theorem validate_amount_leading_zero amount :
  validate_amount amount = Return tt ->
  ((N.of_nat (String.length amount) < int_max_str_digits)%N ->
   validate_amount (String "0" amount) = Return tt
   /\ int (String "0" amount) = int amount)
  /\ (N.of_nat (String.length amount) = int_max_str_digits ->
      validate_amount (String "0" amount) = Raise ValueError).
Proof.
  intros H.
  apply validate_amount_Return_iff in H as (Hne & Hall & Hlen & Hle).
  assert (Hd : PyStr.isdigit (String "0" amount) = true).
  { apply decimal_isdigit; [discriminate|]. simpl. rewrite Hall. reflexivity. }
  split.
  - intros Hlt.
    assert (Hlen' : (N.of_nat (String.length (String "0" amount))
                     <= int_max_str_digits)%N) by (simpl String.length; lia).
    pose proof (int_leading_zero amount Hne Hall Hlen') as Hint.
    split; [|exact Hint].
    apply validate_amount_Return_iff.
    repeat split;
      [discriminate | simpl; rewrite Hall; reflexivity | exact Hlen' |].
    exact Hle.
  - intros Heq. apply validate_amount_ValueError_iff.
    split; [exact Hd|]. right. simpl String.length. lia.
Qed.

Lemma validate_amount_leading_zero_witness :
  (validate_amount "0007" = Return tt /\ int "0007" = int "007")
  /\ validate_amount (String "0" (zeros 4300)) = Raise ValueError.
Proof.
  split.
  - destruct (validate_amount_leading_zero "007") as [H _]; [reflexivity|].
    apply H. reflexivity.
  - destruct (validate_amount_leading_zero (zeros 4300)) as [_ H];
      [vm_compute; reflexivity|].
    apply H. vm_compute. reflexivity.
Defined.

(** ** One pair, as a case analysis *)

Lemma set_stock_pair_cases sku amount stock :
  set_stock_pair (sku, amount) stock
  = match validate_sku sku, validate_amount amount with
    | Raise _, _ => (Return tt, stock)
    | Return _, Raise (StockError _) => (Return tt, stock)
    | Return _, Raise e => (Raise e, stock)
    | Return _, Return _ =>
        match int amount with
        | Return n => (Return tt, <[sku := n]> stock)
        | Raise e => (Raise e, stock)
        end
    end.
Proof.
  unfold set_stock_pair. unfold_M.
  destruct (validate_sku_outcome sku) as [-> | ->]; [|reflexivity].
  destruct (validate_amount amount) as [[]|[]]; reflexivity.
Qed.

Lemma add_stock_pair_cases sku amount stock :
  add_stock_pair (sku, amount) stock
  = match validate_sku sku, validate_amount amount with
    | Raise _, _ => (Return tt, stock)
    | Return _, Raise (StockError _) => (Return tt, stock)
    | Return _, Raise e => (Raise e, stock)
    | Return _, Return _ =>
        match stock !! sku with
        | None => (Raise (StockError (SkuNotFoundAdd sku)), stock)
        | Some level =>
            match int amount with
            | Return n => (Return tt, <[sku := level + n]> stock)
            | Raise e => (Raise e, stock)
            end
        end
    end.
Proof.
  unfold add_stock_pair. unfold_M.
  destruct (validate_sku_outcome sku) as [-> | ->]; [|reflexivity].
  destruct (validate_amount amount) as [[]|[]]; try reflexivity.
  destruct (stock !! sku) as [level|] eqn:Hl; simpl; [|reflexivity].
  rewrite Hl. destruct (int amount); reflexivity.
Qed.

Lemma order_pair_cases order_ref sku amount stock :
  order_pair order_ref (sku, amount) stock
  = match validate_sku sku, validate_amount amount with
    | Raise _, _ => (Return tt, stock)
    | Return _, Raise (StockError _) => (Return tt, stock)
    | Return _, Raise e => (Raise e, stock)
    | Return _, Return _ =>
        match stock !! sku with
        | None => (Raise (StockError (SkuNotFoundOrder sku)), stock)
        | Some level =>
            match int amount with
            | Return n =>
                if level <? n
                then (Raise (StockError (InsufficientStock order_ref sku)),
                      stock)
                else (Return tt, <[sku := level - n]> stock)
            | Raise e => (Raise e, stock)
            end
        end
    end.
Proof.
  unfold order_pair. unfold_M.
  destruct (validate_sku_outcome sku) as [-> | ->]; [|reflexivity].
  destruct (validate_amount amount) as [[]|[]]; try reflexivity.
  destruct (stock !! sku) as [level|] eqn:Hl; simpl; [|reflexivity].
  rewrite Hl. destruct (int amount) as [n|]; [|reflexivity].
  destruct (level <? n); [reflexivity|]. rewrite Hl. reflexivity.
Qed.

(** ** Which exceptions leave the handlers *)

Lemma process_command_tokens instruction stock :
  process_command instruction stock
  = match PyStr.split instruction with
    | [] => (Raise IndexError, stock)
    | operation :: args =>
        if String.eqb operation "set-stock"
        then process_set_stock args stock
        else if String.eqb operation "add-stock"
        then process_add_stock args stock
        else if String.eqb operation "order"
        then process_order args stock
        else (Raise (StockError (UnknownCommand operation)), stock)
    end.
Proof.
  unfold process_command.
  destruct (PyStr.split instruction) as [|operation args]; [reflexivity|].
  unfold bind, lift, getitem, slice_from, raise. simpl.
  destruct (String.eqb operation "set-stock"); [reflexivity|].
  destruct (String.eqb operation "add-stock"); [reflexivity|].
  destruct (String.eqb operation "order"); reflexivity.
Qed.

Lemma pairs_of_elem parts sku amount :
  (sku, amount) ∈ pairs_of parts -> sku ∈ parts /\ amount ∈ parts.
Proof.
  intros [i Hi]%list_elem_of_lookup. apply pairs_of_lookup in Hi as [H1 H2].
  split; eapply list_elem_of_lookup_2; eassumption.
Qed.

Lemma for_each_Raise_elem {A} (body : A -> M unit) l stock e stock' :
  for_each l body stock = (Raise e, stock') ->
  exists x stock1, x ∈ l /\ body x stock1 = (Raise e, stock').
Proof.
  intros H.
  destruct (for_each_Raise _ _ _ _ _ H)
    as (pre & x & rest & stock1 & -> & _ & Hx).
  exists x, stock1. split; [|exact Hx].
  apply elem_of_app. right. apply elem_of_cons. auto.
Qed.

Lemma set_stock_pair_Raise sku amount stock e stock' :
  set_stock_pair (sku, amount) stock = (Raise e, stock') ->
  stock' = stock /\ e = ValueError
  /\ validate_sku sku = Return tt /\ validate_amount amount = Raise ValueError.
Proof.
  rewrite set_stock_pair_cases.
  destruct (validate_sku_outcome sku) as [-> | ->]; [|discriminate].
  destruct (validate_amount_outcome amount) as [[Ha (n & Hn & _)]|[Ha | Ha]];
    rewrite Ha; [rewrite Hn| |]; try discriminate.
  intros [= <- <-]. auto 10.
Qed.

Lemma add_stock_pair_Raise sku amount stock e stock' :
  add_stock_pair (sku, amount) stock = (Raise e, stock') ->
  stock' = stock /\ validate_sku sku = Return tt
  /\ ((e = ValueError /\ validate_amount amount = Raise ValueError)
      \/ (e = StockError (SkuNotFoundAdd sku)
          /\ validate_amount amount = Return tt /\ stock !! sku = None)).
Proof.
  rewrite add_stock_pair_cases.
  destruct (validate_sku_outcome sku) as [-> | ->]; [|discriminate].
  destruct (validate_amount_outcome amount) as [[Ha (n & Hn & _)]|[Ha | Ha]];
    rewrite Ha; try discriminate.
  - destruct (stock !! sku) as [level|]; [rewrite Hn; discriminate|].
    intros [= <- <-]. auto 10.
  - intros [= <- <-]. auto 10.
Qed.

Lemma order_pair_Raise order_ref sku amount stock e stock' :
  order_pair order_ref (sku, amount) stock = (Raise e, stock') ->
  stock' = stock /\ validate_sku sku = Return tt
  /\ ((e = ValueError /\ validate_amount amount = Raise ValueError)
      \/ (e = StockError (SkuNotFoundOrder sku)
          /\ validate_amount amount = Return tt /\ stock !! sku = None)
      \/ (e = StockError (InsufficientStock order_ref sku)
          /\ validate_amount amount = Return tt
          /\ exists level n,
               stock !! sku = Some level /\ int amount = Return n
               /\ level < n)).
Proof.
  rewrite order_pair_cases.
  destruct (validate_sku_outcome sku) as [-> | ->]; [|discriminate].
  destruct (validate_amount_outcome amount) as [[Ha (n & Hn & _)]|[Ha | Ha]];
    rewrite Ha; try discriminate.
  - destruct (stock !! sku) as [level|].
    + rewrite Hn. destruct (level <? n) eqn:Hlt; [|discriminate].
      intros [= <- <-]. apply Z.ltb_lt in Hlt.
      split; [reflexivity|]. split; [reflexivity|]. right; right.
      split; [reflexivity|]. split; [reflexivity|]. eauto.
    + intros [= <- <-]. auto 10.
  - intros [= <- <-]. auto 10.
Qed.



(** X5: an instruction whose first token is none of [set-stock],
    [add-stock] and [order] raises the unknown-command error for that
    token, and the table is unchanged. *)
Theorem unknown_command_raises operation args instruction stock :
  PyStr.split instruction = operation :: args ->
  operation <> "set-stock" -> operation <> "add-stock" ->
  operation <> "order" ->
  process_command instruction stock
  = (Raise (StockError (UnknownCommand operation)), stock).
Proof.
  intros Hsplit H1 H2 H3. rewrite process_command_tokens, Hsplit.
  apply String.eqb_neq in H1, H2, H3. rewrite H1, H2, H3. reflexivity.
Qed.

Lemma unknown_command_raises_witness :
  process_command "Set-Stock AB-6 100" (<["AB-6" := 1]> init)
  = (Raise (StockError (UnknownCommand "Set-Stock")), <["AB-6" := 1]> init).
Proof.
  apply (unknown_command_raises "Set-Stock" ["AB-6"; "100"]);
    [reflexivity | discriminate ..].
Defined.

Lemma process_set_stock_Raise parts stock e stock' :
  process_set_stock parts stock = (Raise e, stock') ->
  e = ValueError
  /\ exists amount,
       amount ∈ parts /\ validate_amount amount = Raise ValueError.
Proof.
  intros H. apply for_each_Raise_elem in H as ([sku amount] & stock1 & Hin & H).
  apply set_stock_pair_Raise in H as (_ & -> & _ & Ha).
  apply pairs_of_elem in Hin as [_ Hin]. eauto.
Qed.

Lemma process_add_stock_Raise parts stock e stock' :
  process_add_stock parts stock = (Raise e, stock') ->
  (e = ValueError
   /\ exists amount,
        amount ∈ parts /\ validate_amount amount = Raise ValueError)
  \/ (exists sku,
        e = StockError (SkuNotFoundAdd sku) /\ sku ∈ parts
        /\ stock' !! sku = None).
Proof.
  intros H. apply for_each_Raise_elem in H as ([sku amount] & stock1 & Hin & H).
  apply pairs_of_elem in Hin as [Hsku Hamount].
  apply add_stock_pair_Raise in H as (-> & _ & [[-> Ha] | (-> & _ & Hl)]);
    eauto.
Qed.

Lemma process_order_Raise parts stock e stock' :
  process_order parts stock = (Raise e, stock') ->
  (e = IndexError /\ parts = [] /\ stock' = stock)
  \/ (exists order_ref args,
        parts = order_ref :: args
        /\ ((e = ValueError
             /\ exists amount,
                  amount ∈ args /\ validate_amount amount = Raise ValueError)
            \/ (exists sku,
                  sku ∈ args /\ stock' !! sku = None
                  /\ e = StockError (SkuNotFoundOrder sku))
            \/ (exists sku level,
                  sku ∈ args /\ stock' !! sku = Some level
                  /\ e = StockError (InsufficientStock order_ref sku)))).
Proof.
  destruct parts as [|order_ref args].
  - intros [= <- <-]. auto.
  - rewrite process_order_cons. intros H. right. exists order_ref, args.
    split; [reflexivity|].
    apply for_each_Raise_elem in H as ([sku amount] & stock1 & Hin & H).
    apply pairs_of_elem in Hin as [Hsku Hamount].
    apply order_pair_Raise in H
      as (-> & _ & [[-> Ha] | [(-> & _ & Hl) | (-> & _ & level & n & Hl & _)]]);
      eauto 10.
Qed.

(** X6: what an exception raised by [process_command] tells.  It is
    never a [KeyError] and never one of the two format errors.  An
    [IndexError] means that the line has no token or the single token
    [order]; a [ValueError], that [validate_amount] raised it on some
    token, one that [isdigit] accepts and [int] refuses (it holds a
    digit that is not a decimal, or more than 4300 digits); the
    unknown-command error carries
    the first token, which is none of the three operations; the
    not-found errors come from the operation they name, for a token of
    the line that is absent from the table left behind; the
    insufficient-stock error carries the second token of an [order] line
    and a token that is a key of the table left behind. *)
Theorem process_command_exceptions instruction stock e stock' :
  process_command instruction stock = (Raise e, stock') ->
  match e with
  | IndexError =>
      PyStr.split instruction = [] \/ PyStr.split instruction = ["order"]
  | KeyError => False
  | ValueError =>
      exists amount,
        amount ∈ PyStr.split instruction
        /\ validate_amount amount = Raise ValueError
        /\ PyStr.isdigit amount = true /\ int amount = Raise ValueError
  | StockError (InvalidSkuFormat _) => False
  | StockError (InvalidAmountFormat _) => False
  | StockError (UnknownCommand operation) =>
      PyStr.split instruction !! 0%nat = Some operation
      /\ operation <> "set-stock" /\ operation <> "add-stock"
      /\ operation <> "order" /\ stock' = stock
  | StockError (SkuNotFoundAdd sku) =>
      PyStr.split instruction !! 0%nat = Some "add-stock"
      /\ sku ∈ PyStr.split instruction /\ stock' !! sku = None
  | StockError (SkuNotFoundOrder sku) =>
      PyStr.split instruction !! 0%nat = Some "order"
      /\ sku ∈ PyStr.split instruction /\ stock' !! sku = None
  | StockError (InsufficientStock order_ref sku) =>
      PyStr.split instruction !! 0%nat = Some "order"
      /\ PyStr.split instruction !! 1%nat = Some order_ref
      /\ sku ∈ PyStr.split instruction /\ is_Some (stock' !! sku)
  end.
Proof.
  rewrite process_command_tokens.
  destruct (PyStr.split instruction) as [|operation args].
  { intros [= <- <-]. auto. }
  destruct (String.eqb operation "set-stock") eqn:H1.
  { intros H. apply process_set_stock_Raise in H as (-> & amount & Hin & Ha).
    exists amount. split; [apply elem_of_cons; auto|].
    split; [exact Ha | exact (validate_amount_ValueError_int _ Ha)]. }
  destruct (String.eqb operation "add-stock") eqn:H2.
  { apply String.eqb_eq in H2 as ->. intros H.
    apply process_add_stock_Raise in H
      as [(-> & amount & Hin & Ha) | (sku & -> & Hin & Hl)].
    - exists amount. split; [apply elem_of_cons; auto|].
    split; [exact Ha | exact (validate_amount_ValueError_int _ Ha)].
    - split; [reflexivity|]. split; [apply elem_of_cons; auto | exact Hl]. }
  destruct (String.eqb operation "order") eqn:H3.
  { apply String.eqb_eq in H3 as ->. intros H.
    apply process_order_Raise in H
      as [(-> & -> & _) | (order_ref & args' & -> & H)]; [auto|].
    destruct H as [(-> & amount & Hin & Ha)
                  | [(sku & Hin & Hl & ->) | (sku & level & Hin & Hl & ->)]].
    - exists amount. split; [rewrite !elem_of_cons; auto|].
      split; [exact Ha | exact (validate_amount_ValueError_int _ Ha)].
    - split; [reflexivity|]. split; [|exact Hl]. rewrite !elem_of_cons. auto.
    - split; [reflexivity|]. split; [reflexivity|].
      split; [|eauto]. rewrite !elem_of_cons. auto. }
  intros [= <- <-]. apply String.eqb_neq in H1, H2, H3. auto.
Qed.

Lemma process_command_exceptions_witness :
  PyStr.split "order ON-7 AB-6 5" !! 0%nat = Some "order"
  /\ PyStr.split "order ON-7 AB-6 5" !! 1%nat = Some "ON-7"
  /\ "AB-6" ∈ PyStr.split "order ON-7 AB-6 5"
  /\ is_Some (<["AB-6" := 3]> init !! "AB-6").
Proof.
  apply (process_command_exceptions "order ON-7 AB-6 5"
           (<["AB-6" := 3]> init)
           (StockError (InsufficientStock "ON-7" "AB-6"))).
  vm_compute. reflexivity.
Defined.

(** X7: [process_command] raises an [IndexError] exactly on the lines
    that have no token and on those whose only token is [order]. *)
Theorem process_command_IndexError_iff instruction stock :
  (process_command instruction stock).1 = Raise IndexError
  <-> PyStr.split instruction = [] \/ PyStr.split instruction = ["order"].
Proof.
  rewrite process_command_tokens. split.
  - destruct (PyStr.split instruction) as [|operation args]; [auto|].
    destruct (String.eqb operation "set-stock").
    { destruct (process_set_stock args stock) as [[|e] stock'] eqn:H;
        [discriminate|].
      apply process_set_stock_Raise in H as [-> _]. discriminate. }
    destruct (String.eqb operation "add-stock").
    { destruct (process_add_stock args stock) as [[|e] stock'] eqn:H;
        [discriminate|].
      apply process_add_stock_Raise in H as [[-> _] | (sku & -> & _)];
        discriminate. }
    destruct (String.eqb operation "order") eqn:H3; [|discriminate].
    apply String.eqb_eq in H3 as ->.
    destruct (process_order args stock) as [[|e] stock'] eqn:H; [discriminate|].
    apply process_order_Raise in H
      as [(_ & -> & _) | (order_ref & args' & _ & H)];
      [auto|].
    destruct H as [[-> _] | [(sku & _ & _ & ->) | (sku & level & _ & _ & ->)]];
      discriminate.
  - intros [-> | ->]; reflexivity.
Qed.

(** ** Instructions that change nothing *)

Lemma for_each_skip {A} (body : A -> M unit) l stock :
  (forall x, x ∈ l -> body x stock = (Return tt, stock)) ->
  for_each l body stock = (Return tt, stock).
Proof.
  induction l as [|x l IH]; intros Hskip; [reflexivity|].
  rewrite for_each_cons, Hskip by (apply elem_of_cons; auto).
  apply IH. intros y Hy. apply Hskip. apply elem_of_cons. auto.
Qed.

(** X8: an instruction in which every pair fails format validation (a
    SKU or an amount rejected with a [StockError]) is accepted without
    any error: each handler returns normally and leaves the table
    unchanged.  This includes an instruction without any pair. *)
Theorem malformed_pairs_are_accepted_silently order_ref parts stock :
  (forall sku amount,
     (sku, amount) ∈ pairs_of parts ->
     exists e,
       validate_sku sku = Raise (StockError e)
       \/ validate_amount amount = Raise (StockError e)) ->
  process_set_stock parts stock = (Return tt, stock)
  /\ process_add_stock parts stock = (Return tt, stock)
  /\ process_order (order_ref :: parts) stock = (Return tt, stock).
Proof.
  intros Hbad. rewrite process_order_cons.
  unfold process_set_stock, process_add_stock. fold (pairs_of parts).
  repeat split; apply for_each_skip; intros [sku amount] Hin;
    destruct (Hbad _ _ Hin) as [e He];
    rewrite ?set_stock_pair_cases, ?add_stock_pair_cases, ?order_pair_cases;
    destruct (validate_sku_outcome sku) as [Hs | Hs]; rewrite Hs;
    try reflexivity;
    (destruct He as [He | He]; [congruence | rewrite He; reflexivity]).
Qed.

Lemma malformed_pairs_are_accepted_silently_witness :
  process_set_stock ["AB-6"; "1000"; "ab-6"; "5"; "X"] (<["AB-6" := 1]> init)
  = (Return tt, <["AB-6" := 1]> init)
  /\ process_add_stock ["AB-6"; "1000"; "ab-6"; "5"; "X"] (<["AB-6" := 1]> init)
     = (Return tt, <["AB-6" := 1]> init)
  /\ process_order ["ON-1"; "AB-6"; "1000"; "ab-6"; "5"; "X"]
       (<["AB-6" := 1]> init)
     = (Return tt, <["AB-6" := 1]> init).
Proof.
  apply malformed_pairs_are_accepted_silently.
  intros sku amount Hin.
  change (pairs_of _) with [("AB-6", "1000"); ("ab-6", "5")] in Hin.
  apply elem_of_cons in Hin as [[= -> ->] | Hin].
  { exists (InvalidAmountFormat "1000"). right. reflexivity. }
  apply list_elem_of_singleton in Hin as [= -> ->].
  exists (InvalidSkuFormat "ab-6"). left. reflexivity.
Defined.

(** ** add-stock and order, pair by pair *)

Lemma process_add_stock_cons sku amount rest stock :
  process_add_stock (sku :: amount :: rest) stock
  = match add_stock_pair (sku, amount) stock with
    | (Return _, stock') => process_add_stock rest stock'
    | (Raise e, stock') => (Raise e, stock')
    end.
Proof.
  unfold process_add_stock. fold (pairs_of (sku :: amount :: rest)).
  rewrite pairs_of_cons, for_each_cons. reflexivity.
Qed.

Lemma process_order_cons2 order_ref sku amount rest stock :
  process_order (order_ref :: sku :: amount :: rest) stock
  = match order_pair order_ref (sku, amount) stock with
    | (Return _, stock') => process_order (order_ref :: rest) stock'
    | (Raise e, stock') => (Raise e, stock')
    end.
Proof.
  rewrite !process_order_cons, pairs_of_cons, for_each_cons. reflexivity.
Qed.

(** X9: [process_add_stock] on no pair returns and leaves the table as
    it is.  After pairs that have been processed, a pair that passes
    validation and whose SKU is in the table returns with the level of
    that SKU raised by the amount, and a pair that fails validation with
    a [StockError] returns with the table as the earlier pairs left
    it. *)
Theorem process_add_stock_pairwise :
  (forall stock, process_add_stock [] stock = (Return tt, stock))
  /\ (forall pre sku amount level stock stock',
        Nat.Even (length pre) ->
        process_add_stock pre stock = (Return tt, stock') ->
        validate_sku sku = Return tt -> validate_amount amount = Return tt ->
        stock' !! sku = Some level ->
        exists n,
          int amount = Return n /\ 0 <= n <= 999
          /\ process_add_stock (pre ++ [sku; amount]) stock
             = (Return tt, <[sku := level + n]> stock'))
  /\ (forall pre sku amount e stock stock',
        Nat.Even (length pre) ->
        process_add_stock pre stock = (Return tt, stock') ->
        validate_sku sku = Raise (StockError e)
        \/ validate_amount amount = Raise (StockError e) ->
        process_add_stock (pre ++ [sku; amount]) stock = (Return tt, stock')).
Proof.
  split; [reflexivity|]. split.
  - intros pre sku amount level stock stock' Heven Hpre Hs Ha Hl.
    destruct (validate_amount_Return _ Ha) as (n & Hn & Hr).
    exists n. split; [exact Hn|]. split; [exact Hr|].
    rewrite (process_add_stock_after _ _ _ _ Heven Hpre).
    rewrite process_add_stock_cons, add_stock_pair_cases, Hs, Ha, Hl, Hn.
    reflexivity.
  - intros pre sku amount e stock stock' Heven Hpre He.
    rewrite (process_add_stock_after _ _ _ _ Heven Hpre).
    rewrite process_add_stock_cons, add_stock_pair_cases.
    destruct (validate_sku_outcome sku) as [Hs | Hs]; rewrite Hs;
      [|reflexivity].
    destruct He as [He | He]; [congruence | rewrite He; reflexivity].
Qed.

Lemma process_add_stock_pairwise_witness :
  process_add_stock ["AB-6"; "20"; "AB-6"; "x"; "AB-6"; "5"]
    (<["AB-6" := 100]> init)
  = (Return tt,
     <["AB-6" := 100 + 20 + 5]>
       (<["AB-6" := 100 + 20]> (<["AB-6" := 100]> init))).
Proof.
  destruct process_add_stock_pairwise as (Hbase & Hadd & Hskip).
  assert (H1 : process_add_stock ["AB-6"; "20"] (<["AB-6" := 100]> init)
               = (Return tt,
                  <["AB-6" := 100 + 20]> (<["AB-6" := 100]> init))).
  { destruct (Hadd [] "AB-6" "20" 100 (<["AB-6" := 100]> init)
                (<["AB-6" := 100]> init)) as (n & Hn & _ & H);
      [exists 0%nat; reflexivity | apply Hbase | reflexivity ..|].
    injection Hn as <-. exact H. }
  assert (H2 : process_add_stock ["AB-6"; "20"; "AB-6"; "x"]
                 (<["AB-6" := 100]> init)
               = (Return tt,
                  <["AB-6" := 100 + 20]> (<["AB-6" := 100]> init))).
  { apply (Hskip ["AB-6"; "20"] "AB-6" "x" (InvalidAmountFormat "x"));
      [exists 1%nat; reflexivity | exact H1 | right; reflexivity]. }
  destruct (Hadd ["AB-6"; "20"; "AB-6"; "x"] "AB-6" "5" (100 + 20)
              (<["AB-6" := 100]> init)
              (<["AB-6" := 100 + 20]> (<["AB-6" := 100]> init)))
    as (n & Hn & _ & H);
    [exists 2%nat; reflexivity | exact H2 | reflexivity ..|].
  injection Hn as <-. exact H.
Defined.

(** X10: [process_order] on an order reference alone returns and leaves
    the table as it is.  After pairs that have been processed, a pair
    that passes validation and whose SKU is in the table at a level not
    below the amount returns with the level lowered by the amount, to 0
    at least, the SKU staying a key; a pair that fails validation with a
    [StockError] returns with the table as the earlier pairs left it. *)
Theorem process_order_pairwise :
  (forall order_ref stock,
     process_order [order_ref] stock = (Return tt, stock))
  /\ (forall order_ref pre sku amount n level stock stock',
        Nat.Even (length pre) ->
        process_order (order_ref :: pre) stock = (Return tt, stock') ->
        validate_sku sku = Return tt -> validate_amount amount = Return tt ->
        int amount = Return n -> stock' !! sku = Some level -> n <= level ->
        exists final,
          process_order (order_ref :: pre ++ [sku; amount]) stock
          = (Return tt, final)
          /\ final = <[sku := level - n]> stock'
          /\ final !! sku = Some (level - n) /\ 0 <= level - n)
  /\ (forall order_ref pre sku amount e stock stock',
        Nat.Even (length pre) ->
        process_order (order_ref :: pre) stock = (Return tt, stock') ->
        validate_sku sku = Raise (StockError e)
        \/ validate_amount amount = Raise (StockError e) ->
        process_order (order_ref :: pre ++ [sku; amount]) stock
        = (Return tt, stock')).
Proof.
  split; [reflexivity|]. split.
  - intros order_ref pre sku amount n level stock stock'
      Heven Hpre Hs Ha Hn Hl Hle.
    exists (<[sku := level - n]> stock').
    split; [|split; [reflexivity | split; [apply lookup_insert_eq | lia]]].
    rewrite (process_order_after _ _ _ _ _ Heven Hpre).
    rewrite process_order_cons2, order_pair_cases, Hs, Ha, Hl, Hn.
    apply Z.ltb_ge in Hle. rewrite Hle. reflexivity.
  - intros order_ref pre sku amount e stock stock' Heven Hpre He.
    rewrite (process_order_after _ _ _ _ _ Heven Hpre).
    rewrite process_order_cons2, order_pair_cases.
    destruct (validate_sku_outcome sku) as [Hs | Hs]; rewrite Hs;
      [|reflexivity].
    destruct He as [He | He]; [congruence | rewrite He; reflexivity].
Qed.

Lemma process_order_pairwise_witness :
  exists final,
    process_order ["ON-1"; "ab-6"; "1"; "AB-6"; "100"] (<["AB-6" := 100]> init)
    = (Return tt, final)
    /\ final = <["AB-6" := 100 - 100]> (<["AB-6" := 100]> init)
    /\ final !! "AB-6" = Some (100 - 100) /\ 0 <= 100 - 100.
Proof.
  destruct process_order_pairwise as (Hbase & Horder & Hskip).
  apply (Horder "ON-1" ["ab-6"; "1"] "AB-6" "100" 100 100
           (<["AB-6" := 100]> init));
    [exists 1%nat; reflexivity | | reflexivity ..| lia].
  apply (Hskip "ON-1" [] "ab-6" "1" (InvalidSkuFormat "ab-6"));
    [exists 0%nat; reflexivity | apply Hbase | left; reflexivity].
Defined.

(** ** Invariants that depend on the tokens of the instruction *)

Lemma for_each_inv_elem {A} (P : gmap string Z -> Prop)
    (body : A -> M unit) (l : list A) :
  (forall x stock, x ∈ l -> P stock -> P (body x stock).2) ->
  forall stock, P stock -> P (for_each l body stock).2.
Proof.
  induction l as [|x l IH]; intros Hbody stock HP; [exact HP|].
  rewrite for_each_cons.
  pose proof (Hbody x stock ltac:(apply elem_of_cons; auto) HP) as Hx.
  destruct (body x stock) as [[[]|e] stock1]; simpl in *; [|exact Hx].
  apply IH; [|exact Hx].
  intros y s Hy. apply Hbody. apply elem_of_cons. auto.
Qed.

Lemma process_command_inv_tokens (P : gmap string Z -> Prop) instruction :
  (forall sku amount stock,
     sku ∈ PyStr.split instruction -> amount ∈ PyStr.split instruction ->
     P stock -> P (set_stock_pair (sku, amount) stock).2) ->
  (forall sku amount stock,
     sku ∈ PyStr.split instruction -> amount ∈ PyStr.split instruction ->
     P stock -> P (add_stock_pair (sku, amount) stock).2) ->
  (forall order_ref sku amount stock,
     sku ∈ PyStr.split instruction -> amount ∈ PyStr.split instruction ->
     P stock -> P (order_pair order_ref (sku, amount) stock).2) ->
  forall stock, P stock -> P (process_command instruction stock).2.
Proof.
  intros Hset Hadd Horder stock HP. rewrite process_command_tokens.
  destruct (PyStr.split instruction) as [|operation args]; [exact HP|].
  assert (Hin : forall sku amount args',
            (sku, amount) ∈ pairs_of args' -> args' ⊆ args ->
            sku ∈ operation :: args /\ amount ∈ operation :: args).
  { intros sku amount args' Hp Hsub. apply pairs_of_elem in Hp as [H1 H2].
    split; apply elem_of_cons; right; apply Hsub; assumption. }
  destruct (String.eqb operation "set-stock").
  { unfold process_set_stock. fold (pairs_of args).
    apply for_each_inv_elem; [|exact HP]. intros [sku amount] s Hp.
    destruct (Hin _ _ _ Hp ltac:(reflexivity)). apply Hset; assumption. }
  destruct (String.eqb operation "add-stock").
  { unfold process_add_stock. fold (pairs_of args).
    apply for_each_inv_elem; [|exact HP]. intros [sku amount] s Hp.
    destruct (Hin _ _ _ Hp ltac:(reflexivity)). apply Hadd; assumption. }
  destruct (String.eqb operation "order"); [|exact HP].
  destruct args as [|order_ref args]; [exact HP|].
  rewrite process_order_cons.
  apply for_each_inv_elem; [|exact HP]. intros [sku amount] s Hp.
  destruct (Hin _ _ args Hp) as [H1 H2].
  { intros x Hx. apply elem_of_cons. auto. }
  apply Horder; assumption.
Qed.

Lemma run_all_inv_tokens (P : gmap string Z -> Prop) :
  (forall instruction sku amount stock,
     sku ∈ PyStr.split instruction -> amount ∈ PyStr.split instruction ->
     P stock -> P (set_stock_pair (sku, amount) stock).2) ->
  (forall instruction sku amount stock,
     sku ∈ PyStr.split instruction -> amount ∈ PyStr.split instruction ->
     P stock -> P (add_stock_pair (sku, amount) stock).2) ->
  (forall instruction order_ref sku amount stock,
     sku ∈ PyStr.split instruction -> amount ∈ PyStr.split instruction ->
     P stock -> P (order_pair order_ref (sku, amount) stock).2) ->
  forall instructions stock, P stock -> P (run_all instructions stock).
Proof.
  intros Hset Hadd Horder instructions.
  induction instructions as [|i rest IH]; intros stock HP; [exact HP|].
  simpl. apply IH. unfold exec.
  apply process_command_inv_tokens; eauto.
Qed.

(** ** Keys and levels *)

(** X11: [process_add_stock] and [process_order] leave the set of keys
    of the table as it is, whatever their outcome: only set-stock
    creates a key. *)
Theorem add_and_order_keep_the_keys parts order_parts stock :
  dom (process_add_stock parts stock).2 = dom stock
  /\ dom (process_order order_parts stock).2 = dom stock.
Proof.
  split.
  - apply (for_each_inv (fun s => dom s = dom stock)); [|reflexivity].
    intros p s <-. apply add_stock_pair_dom.
  - destruct order_parts as [|order_ref order_parts]; [reflexivity|].
    rewrite process_order_cons.
    apply (for_each_inv (fun s => dom s = dom stock)); [|reflexivity].
    intros p s <-. apply order_pair_dom.
Qed.

Lemma set_stock_pair_other sku amount stock k :
  k <> sku -> (set_stock_pair (sku, amount) stock).2 !! k = stock !! k.
Proof.
  intros Hk.
  destruct (set_stock_pair_effect (sku, amount) stock)
    as [-> | [(n & _ & ->) | ->]]; simpl; try reflexivity.
  apply lookup_insert_ne. congruence.
Qed.

Lemma add_stock_pair_other sku amount stock k :
  k <> sku -> (add_stock_pair (sku, amount) stock).2 !! k = stock !! k.
Proof.
  intros Hk.
  destruct (add_stock_pair_effect (sku, amount) stock)
    as [-> | [(level & n & _ & _ & ->) | [e ->]]]; simpl; try reflexivity.
  apply lookup_insert_ne. congruence.
Qed.

Lemma order_pair_other order_ref sku amount stock k :
  k <> sku ->
  (order_pair order_ref (sku, amount) stock).2 !! k = stock !! k.
Proof.
  intros Hk.
  destruct (order_pair_effect order_ref (sku, amount) stock)
    as [-> | [(level & n & _ & _ & ->) | [e ->]]]; simpl; try reflexivity.
  apply lookup_insert_ne. congruence.
Qed.

(** X12: [process_command] reads and writes the table only at the
    tokens of its instruction: for a SKU that is not one of them, the
    entry of the table (present or absent) is the same after the call. *)
Theorem process_command_frame instruction stock sku :
  sku ∉ PyStr.split instruction ->
  (process_command instruction stock).2 !! sku = stock !! sku.
Proof.
  intros Hnot.
  apply (process_command_inv_tokens (fun s => s !! sku = stock !! sku));
    [| | |reflexivity].
  - intros k amount s Hk _ <-. apply set_stock_pair_other. congruence.
  - intros k amount s Hk _ <-. apply add_stock_pair_other. congruence.
  - intros order_ref k amount s Hk _ <-. apply order_pair_other. congruence.
Qed.

Lemma process_command_frame_witness :
  (process_command "order ON-1 AB-6 5 CD-3 1"
     (<["AB-6" := 9]> (<["EF-1" := 2]> init))).2 !! "EF-1"
  = <["AB-6" := 9]> (<["EF-1" := 2]> init) !! "EF-1".
Proof.
  apply process_command_frame. vm_compute PyStr.split. intros Hin.
  repeat (apply elem_of_cons in Hin as [Hin | Hin]; [discriminate|]).
  apply elem_of_nil in Hin. exact Hin.
Defined.

(** X13: [process_add_stock] never lowers a level and [process_order]
    never raises one, whatever their outcome. *)
Theorem add_raises_and_order_lowers parts order_parts stock sku level :
  stock !! sku = Some level ->
  (exists level',
     (process_add_stock parts stock).2 !! sku = Some level' /\ level <= level')
  /\ (exists level',
        (process_order order_parts stock).2 !! sku = Some level'
        /\ level' <= level).
Proof.
  intros Hl. split.
  - apply (for_each_inv (fun s => exists level', s !! sku = Some level'
                                    /\ level <= level'));
      [|exists level; split; [exact Hl | lia]].
    intros p s (level' & Hs & Hle).
    destruct (add_stock_pair_effect p s)
      as [-> | [(l0 & n & Hl0 & Hn & ->) | [e ->]]]; simpl; eauto.
    destruct (decide (p.1 = sku)) as [Heq | Hne].
    + rewrite Heq in *. rewrite lookup_insert_eq.
      exists (l0 + n). split; [reflexivity|].
      rewrite Hs in Hl0. injection Hl0 as <-. lia.
    + rewrite lookup_insert_ne by exact Hne. eauto.
  - destruct order_parts as [|order_ref order_parts];
      [exists level; split; [exact Hl | lia]|].
    rewrite process_order_cons.
    apply (for_each_inv (fun s => exists level', s !! sku = Some level'
                                    /\ level' <= level));
      [|exists level; split; [exact Hl | lia]].
    intros p s (level' & Hs & Hle).
    destruct (order_pair_effect order_ref p s)
      as [-> | [(l0 & n & Hl0 & Hn & ->) | [e ->]]]; simpl; eauto.
    destruct (decide (p.1 = sku)) as [Heq | Hne].
    + rewrite Heq in *. rewrite lookup_insert_eq.
      exists (l0 - n). split; [reflexivity|].
      rewrite Hs in Hl0. injection Hl0 as <-. lia.
    + rewrite lookup_insert_ne by exact Hne. eauto.
Qed.

Lemma add_raises_and_order_lowers_witness :
  (exists level',
     (process_add_stock ["AB-6"; "5"; "ZZ-1"; "1"] (<["AB-6" := 9]> init)).2
       !! "AB-6" = Some level' /\ 9 <= level')
  /\ (exists level',
        (process_order ["ON-1"; "AB-6"; "5"; "AB-6"; "7"]
           (<["AB-6" := 9]> init)).2 !! "AB-6" = Some level'
        /\ level' <= 9).
Proof.
  apply add_raises_and_order_lowers. reflexivity.
Defined.

(** ** Orders undone by additions *)

(** X14: an order of one pair followed by an add-stock of the same
    pair gives back the table, when the pair passes validation and the
    level covers the amount; an add-stock followed by an order of the
    same pair gives back the table, when the level is not negative. *)
Theorem order_and_add_cancel order_ref sku amount n level stock :
  validate_sku sku = Return tt -> validate_amount amount = Return tt ->
  int amount = Return n -> stock !! sku = Some level ->
  (n <= level ->
   exists stock1,
     process_order [order_ref; sku; amount] stock = (Return tt, stock1)
     /\ stock1 !! sku = Some (level - n)
     /\ process_add_stock [sku; amount] stock1 = (Return tt, stock))
  /\ (0 <= level ->
      exists stock1,
        process_add_stock [sku; amount] stock = (Return tt, stock1)
        /\ stock1 !! sku = Some (level + n)
        /\ process_order [order_ref; sku; amount] stock1 = (Return tt, stock)).
Proof.
  intros Hs Ha Hn Hl.
  assert (Hback : forall v, <[sku := level]> (<[sku := v]> stock) = stock).
  { intros v. rewrite insert_insert_eq. apply insert_id. exact Hl. }
  split.
  - intros Hle. exists (<[sku := level - n]> stock).
    rewrite process_order_cons2, order_pair_cases, Hs, Ha, Hl, Hn.
    apply Z.ltb_ge in Hle. rewrite Hle.
    split; [reflexivity|]. split; [apply lookup_insert_eq|].
    rewrite process_add_stock_cons, add_stock_pair_cases, Hs, Ha.
    rewrite lookup_insert_eq, Hn.
    replace (level - n + n) with level by lia. rewrite Hback. reflexivity.
  - intros Hle. exists (<[sku := level + n]> stock).
    rewrite process_add_stock_cons, add_stock_pair_cases, Hs, Ha, Hl, Hn.
    split; [reflexivity|]. split; [apply lookup_insert_eq|].
    rewrite process_order_cons2, order_pair_cases, Hs, Ha.
    rewrite lookup_insert_eq, Hn.
    assert (Hge : (level + n <? n) = false) by (apply Z.ltb_ge; lia).
    rewrite Hge. replace (level + n - n) with level by lia.
    rewrite Hback. reflexivity.
Qed.

Lemma order_and_add_cancel_witness :
  (exists stock1,
     process_order ["ON-1"; "AB-6"; "50"] (<["AB-6" := 100]> init)
     = (Return tt, stock1)
     /\ stock1 !! "AB-6" = Some (100 - 50)
     /\ process_add_stock ["AB-6"; "50"] stock1
        = (Return tt, <["AB-6" := 100]> init))
  /\ (exists stock1,
        process_add_stock ["AB-6"; "50"] (<["AB-6" := 100]> init)
        = (Return tt, stock1)
        /\ stock1 !! "AB-6" = Some (100 + 50)
        /\ process_order ["ON-1"; "AB-6"; "50"] stock1
           = (Return tt, <["AB-6" := 100]> init)).
Proof.
  destruct (order_and_add_cancel "ON-1" "AB-6" "50" 50 100
              (<["AB-6" := 100]> init)) as [H1 H2]; try reflexivity.
  split; [apply H1 | apply H2]; lia.
Defined.

(** X15: when [process_add_stock] fails with a [StockError], it is the
    not-found error of one pair whose SKU is absent; the table it leaves
    is the one that [process_add_stock] produces, returning normally, on
    the argument list cut just before that pair: the additions of the
    earlier pairs stay. *)
Theorem add_failure_keeps_earlier_additions parts stock e stock' :
  process_add_stock parts stock = (Raise (StockError e), stock') ->
  exists k sku amount,
    parts !! (2 * k)%nat = Some sku
    /\ parts !! (2 * k + 1)%nat = Some amount
    /\ process_add_stock (take (2 * k) parts) stock = (Return tt, stock')
    /\ e = SkuNotFoundAdd sku /\ stock' !! sku = None.
Proof.
  unfold process_add_stock. fold (pairs_of parts). intros H.
  destruct (for_each_Raise _ _ _ _ _ H)
    as (pre & [sku amount] & rest & stock1 & Hl & Hpre & Hp).
  apply add_stock_pair_Raise in Hp
    as (-> & _ & [[[=] _] | ([= ->] & _ & Hnone)]).
  assert (Hk : pairs_of parts !! length pre = Some (sku, amount)).
  { rewrite Hl. rewrite lookup_app_r by lia.
    replace (length pre - length pre)%nat with 0%nat by lia. reflexivity. }
  apply pairs_of_lookup in Hk as [Hsku Hamount].
  exists (length pre), sku, amount.
  split; [exact Hsku|]. split; [exact Hamount|].
  split; [|auto].
  fold (pairs_of (take (2 * length pre) parts)).
  rewrite pairs_of_take, Hl, take_app_length. exact Hpre.
Qed.

Lemma add_failure_keeps_earlier_additions_witness :
  exists k sku amount,
    ["AB-6"; "20"; "ZF-9"; "5"; "AB-6"; "1"] !! (2 * k)%nat = Some sku
    /\ ["AB-6"; "20"; "ZF-9"; "5"; "AB-6"; "1"] !! (2 * k + 1)%nat
       = Some amount
    /\ process_add_stock (take (2 * k) ["AB-6"; "20"; "ZF-9"; "5"; "AB-6"; "1"])
         (<["AB-6" := 100]> init)
       = (Return tt, <["AB-6" := 120]> init)
    /\ SkuNotFoundAdd "ZF-9" = SkuNotFoundAdd sku
    /\ <["AB-6" := 120]> init !! sku = None.
Proof.
  apply (add_failure_keeps_earlier_additions
           ["AB-6"; "20"; "ZF-9"; "5"; "AB-6"; "1"] (<["AB-6" := 100]> init)).
  vm_compute. reflexivity.
Defined.

(** ** Tokens and keys *)

Lemma no_space_app a b : no_space a -> no_space b -> no_space (a ++ b).
Proof.
  unfold no_space. intros Ha Hb. rewrite forallb_str_app, Ha, Hb. reflexivity.
Qed.

Lemma split_from_tokens s cur token :
  no_space cur -> token ∈ PyStr.split_from cur s ->
  token <> "" /\ no_space token.
Proof.
  revert cur. induction s as [|c s IH]; intros cur Hcur; simpl.
  - destruct cur; [intros []%elem_of_nil|].
    intros ->%list_elem_of_singleton. split; [discriminate | exact Hcur].
  - destruct (PyStr.isspace c) eqn:Hc.
    + destruct cur.
      * apply IH. reflexivity.
      * intros [-> | H]%elem_of_cons; [split; [discriminate | exact Hcur]|].
        revert H. apply IH. reflexivity.
    + apply IH. apply no_space_app; [exact Hcur|].
      unfold no_space. simpl. rewrite Hc. reflexivity.
Qed.

(** X16: every token that [split] yields is non-empty and holds no
    whitespace, and a non-empty string without whitespace is its own
    single token. *)
Theorem split_yields_tokens s :
  (forall token, token ∈ PyStr.split s -> token <> "" /\ no_space token)
  /\ (s <> "" -> no_space s -> PyStr.split s = [s]).
Proof.
  split.
  - intros token. apply split_from_tokens. reflexivity.
  - intros Hne Hs. unfold PyStr.split.
    rewrite <- (append_empty_r s) at 1.
    rewrite (split_from_word "" s "" Hs).
    change ("" ++ s) with s. simpl. destruct s; [congruence | reflexivity].
Qed.

Lemma split_yields_tokens_witness :
  "AB-6" <> "" /\ no_space "AB-6".
Proof.
  destruct (split_yields_tokens "  set-stock   AB-6 100 ") as [H _].
  apply H. vm_compute PyStr.split. rewrite !elem_of_cons. auto.
Defined.

Lemma newline_has_space g : ~ no_space (g ++ newline).
Proof.
  unfold no_space. rewrite forallb_str_app.
  change (PyStr.forallb_str _ newline) with false.
  rewrite andb_false_r. discriminate.
Qed.

(** A token that passes [validate_sku] is a SKU of the grammar. *)
Lemma valid_token_sku_grammar sku :
  no_space sku -> validate_sku sku = Return tt -> sku_grammar sku.
Proof.
  intros Hns [H | (g & _ & ->)]%validate_sku_spec; [exact H|].
  destruct (newline_has_space _ Hns).
Qed.

Lemma set_stock_pair_keys (Q : string -> Prop) sku amount stock :
  (validate_sku sku = Return tt -> Q sku) ->
  (forall k, k ∈ dom stock -> Q k) ->
  forall k, k ∈ dom (set_stock_pair (sku, amount) stock).2 -> Q k.
Proof.
  intros Hsku Hall k. rewrite set_stock_pair_cases.
  destruct (validate_sku_outcome sku) as [Hs | Hs]; rewrite Hs; [|apply Hall].
  destruct (validate_amount amount) as [[]|[]]; try apply Hall.
  destruct (int amount); [|apply Hall].
  simpl. rewrite dom_insert_L, elem_of_union, elem_of_singleton.
  intros [-> | Hk]; auto.
Qed.

(** X17: after any sequence of [process_command] calls from the empty
    table, every key of the table is a SKU of the grammar, in full: the
    tokens of a line hold no newline, so that the SKUs with a newline
    after them, which [validate_sku] accepts, are never stored. *)
Theorem keys_are_skus instructions sku :
  sku ∈ dom (run_all instructions init) -> sku_grammar sku.
Proof.
  revert sku.
  apply (fun H => run_all_inv_tokens
                    (fun s => forall k, k ∈ dom s -> sku_grammar k) H);
    [| | |intros k []%elem_of_empty].
  - intros instruction sku amount s Hsku _ Hall.
    apply set_stock_pair_keys; [|exact Hall].
    intros Hv. apply valid_token_sku_grammar; [|exact Hv].
    apply (split_from_tokens instruction "" sku); [reflexivity | exact Hsku].
  - intros instruction sku amount s _ _ Hall k.
    rewrite add_stock_pair_dom. apply Hall.
  - intros instruction order_ref sku amount s _ _ Hall k.
    rewrite order_pair_dom. apply Hall.
Qed.

Lemma keys_are_skus_witness : sku_grammar "AB-6".
Proof.
  apply (keys_are_skus ["set-stock AB-6 100 ab-6 1"; "order ON-1 AB-6 100"]).
  apply elem_of_dom. exists 0. vm_compute. reflexivity.
Defined.

(** ** Stripping a line *)

Lemma split_from_lstrip s : PyStr.split (PyStr.lstrip s) = PyStr.split s.
Proof.
  unfold PyStr.split. induction s as [|c s IH]; [reflexivity|].
  simpl. destruct (PyStr.isspace c) eqn:Hc; [exact IH|].
  simpl. rewrite Hc. reflexivity.
Qed.

Lemma split_from_rstrip s cur :
  PyStr.split_from cur (PyStr.rstrip s) = PyStr.split_from cur s.
Proof.
  revert cur. induction s as [|c s IH]; intros cur; [reflexivity|].
  simpl PyStr.rstrip. destruct (PyStr.rstrip s) as [|c' r] eqn:Hr;
    rewrite ?Hr in IH.
  - destruct (PyStr.isspace c) eqn:Hc; simpl; rewrite Hc.
    + rewrite <- IH. destruct cur; reflexivity.
    + rewrite <- IH. reflexivity.
  - change (PyStr.split_from cur (String c (String c' r)))
      with (if PyStr.isspace c
            then match cur with
                 | "" => PyStr.split_from "" (String c' r)
                 | _ => cur :: PyStr.split_from "" (String c' r)
                 end
            else PyStr.split_from (cur ++ String c "") (String c' r)).
    rewrite !IH. reflexivity.
Qed.

Lemma split_strip s : PyStr.split (PyStr.strip s) = PyStr.split s.
Proof.
  unfold PyStr.strip.
  transitivity (PyStr.split (PyStr.lstrip s));
    [apply split_from_rstrip | apply split_from_lstrip].
Qed.

Lemma process_command_strip line stock :
  process_command (PyStr.strip line) stock = process_command line stock.
Proof. rewrite !process_command_tokens, split_strip. reflexivity. Qed.

Lemma strip_whitespace s :
  PyStr.forallb_str PyStr.isspace s = true -> PyStr.strip s = "".
Proof.
  unfold PyStr.strip. induction s as [|c s IH]; [reflexivity|].
  simpl. intros [Hc Hs]%andb_true_iff. rewrite Hc. auto.
Qed.

(** X18: stripping a line does not change its tokens, so that
    [process_command] does the same on a line and on the stripped line;
    a line of whitespace only is stripped to the empty string. *)
Theorem strip_keeps_the_tokens line :
  PyStr.split (PyStr.strip line) = PyStr.split line
  /\ (forall stock,
        process_command (PyStr.strip line) stock = process_command line stock)
  /\ (PyStr.forallb_str PyStr.isspace line = true -> PyStr.strip line = "").
Proof.
  split; [apply split_strip|].
  split; [apply process_command_strip | apply strip_whitespace].
Qed.

Lemma strip_keeps_the_tokens_witness :
  PyStr.strip ("  " ++ newline) = "".
Proof.
  destruct (strip_keeps_the_tokens ("  " ++ newline)) as (_ & _ & H).
  apply H. reflexivity.
Defined.

(** ** The driver *)

Lemma process_lines_exec n line lines stock :
  process_lines n (line :: lines) stock
  = match process_command line stock with
    | (Return _, stock') =>
        let '(r, stock'', out) := process_lines (S n) lines stock' in
        (r, stock'', Processing n (PyStr.strip line) :: out)
    | (Raise (StockError e), stock') =>
        let '(r, stock'', out) := process_lines (S n) lines stock' in
        (r, stock'',
         Processing n (PyStr.strip line)
         :: ErrorProcessing n (PyStr.strip line) :: ErrorDetail e :: out)
    | (Raise e, stock') => (Raise e, stock', [Processing n (PyStr.strip line)])
    end.
Proof. simpl. rewrite process_command_strip. reflexivity. Qed.

Lemma goes_on_dec r : goes_on r \/ ~ goes_on r.
Proof. destruct r as [[]|[e| | |]]; simpl; auto. Qed.

Lemma process_lines_goes_on n line lines stock :
  goes_on (process_command line stock).1 ->
  process_lines n (line :: lines) stock
  = ((process_lines (S n) lines (exec stock line)).1,
     (line_report n (PyStr.strip line) (process_command line stock).1
      ++ (process_lines (S n) lines (exec stock line)).2)%list).
Proof.
  rewrite process_lines_exec. unfold exec.
  destruct (process_command line stock) as [[[]|[e| | |]] stock']; simpl;
    intros H; try contradiction;
    destruct (process_lines (S n) lines stock') as [[r s] out]; reflexivity.
Qed.

Lemma process_lines_stops n line lines stock :
  ~ goes_on (process_command line stock).1 ->
  exists e,
    (process_command line stock).1 = Raise e
    /\ process_lines n (line :: lines) stock
       = (Raise e, exec stock line, [Processing n (PyStr.strip line)]).
Proof.
  rewrite process_lines_exec. unfold exec.
  destruct (process_command line stock) as [[[]|[e| | |]] stock']; simpl;
    intros H; try (destruct (H I)); eauto.
Qed.

Lemma line_report_elem n line r :
  Processing n line ∈ line_report n line r
  /\ (FinalStockLevels ∉ line_report n line r)
  /\ (forall e, r = Raise (StockError e) ->
                ErrorProcessing n line ∈ line_report n line r
                /\ ErrorDetail e ∈ line_report n line r).
Proof.
  unfold line_report. split; [apply elem_of_cons; auto|]. split.
  - destruct r as [[]|[e| | |]]; rewrite ?elem_of_cons, ?elem_of_nil;
      intuition discriminate.
  - intros e ->. rewrite !elem_of_cons. auto 10.
Qed.

Lemma all_go_on_cons line lines stock :
  all_go_on (line :: lines) stock
  <-> goes_on (process_command line stock).1
      /\ all_go_on lines (exec stock line).
Proof.
  unfold all_go_on. split.
  - intros H. split; [exact (H 0%nat line eq_refl)|].
    intros i l Hl. exact (H (S i) l Hl).
  - intros [H0 H] [|i] l Hl.
    + injection Hl as <-. exact H0.
    + exact (H i l Hl).
Qed.

Lemma process_lines_no_final n lines stock :
  FinalStockLevels ∉ (process_lines n lines stock).2.
Proof.
  revert n stock. induction lines as [|line lines IH]; intros n stock.
  - simpl. apply not_elem_of_nil.
  - destruct (goes_on_dec (process_command line stock).1) as [Hgo | Hstop].
    + rewrite (process_lines_goes_on n line lines stock Hgo). cbn [snd].
      rewrite elem_of_app. intros [H | H].
      * revert H. apply line_report_elem.
      * revert H. apply IH.
    + destruct (process_lines_stops n line lines stock Hstop) as (e & _ & ->).
      simpl. rewrite list_elem_of_singleton. discriminate.
Qed.

Lemma process_lines_Return_iff n lines stock :
  (process_lines n lines stock).1.1 = Return tt <-> all_go_on lines stock.
Proof.
  revert n stock. induction lines as [|line lines IH]; intros n stock.
  - split; [|reflexivity]. intros _ i line Hl. rewrite lookup_nil in Hl.
    discriminate.
  - rewrite all_go_on_cons.
    destruct (goes_on_dec (process_command line stock).1) as [Hgo | Hstop].
    + rewrite (process_lines_goes_on n line lines stock Hgo).
      simpl. rewrite IH. tauto.
    + destruct (process_lines_stops n line lines stock Hstop) as (e & _ & ->).
      simpl. split; [discriminate | tauto].
Qed.

Lemma process_lines_app n pre lines stock :
  all_go_on pre stock ->
  process_lines n (pre ++ lines) stock
  = ((process_lines (n + length pre) lines (run_all pre stock)).1,
     ((process_lines n pre stock).2
      ++ (process_lines (n + length pre) lines (run_all pre stock)).2)%list).
Proof.
  revert n stock. induction pre as [|line pre IH]; intros n stock Hgo.
  - simpl. rewrite Nat.add_0_r.
    destruct (process_lines n lines stock) as [[r s] out]. reflexivity.
  - apply all_go_on_cons in Hgo as [Hline Hpre].
    change ((line :: pre) ++ lines)%list with (line :: (pre ++ lines))%list.
    rewrite !(process_lines_goes_on n line _ stock Hline).
    rewrite (IH (S n) _ Hpre). simpl.
    replace (n + S (length pre))%nat with (S (n + length pre)) by lia.
    rewrite app_assoc. reflexivity.
Qed.

Lemma process_lines_complete n lines stock :
  all_go_on lines stock ->
  (process_lines n lines stock).1 = (Return tt, run_all lines stock)
  /\ forall i line,
       lines !! i = Some line ->
       Processing (n + i) (PyStr.strip line) ∈ (process_lines n lines stock).2
       /\ forall e,
            (process_command line (run_all (take i lines) stock)).1
            = Raise (StockError e) ->
            ErrorProcessing (n + i) (PyStr.strip line)
              ∈ (process_lines n lines stock).2
            /\ ErrorDetail e ∈ (process_lines n lines stock).2.
Proof.
  revert n stock. induction lines as [|line lines IH]; intros n stock Hgo.
  - split; [reflexivity|]. intros i line Hl. rewrite lookup_nil in Hl.
    discriminate.
  - apply all_go_on_cons in Hgo as [Hline Hlines].
    rewrite (process_lines_goes_on n line lines stock Hline). cbn [fst snd].
    destruct (IH (S n) _ Hlines) as [Hres Hlog]. split; [exact Hres|].
    destruct (line_report_elem n (PyStr.strip line)
                (process_command line stock).1) as (HP & _ & HE).
    intros [|i] l Hl.
    + injection Hl as <-. rewrite Nat.add_0_r. split.
      * apply elem_of_app. auto.
      * intros e He. destruct (HE e He). rewrite !elem_of_app. auto.
    + destruct (Hlog i l Hl) as [HP' HE'].
      replace (n + S i)%nat with (S n + i)%nat by lia. split.
      * apply elem_of_app. auto.
      * intros e He. destruct (HE' e He). rewrite !elem_of_app. auto.
Qed.

(** X19: [process_stock_file] returns normally exactly when every
    line, processed from the table that the lines before it leave,
    returns or raises a [StockError]. *)
Theorem process_stock_file_completes_iff lines :
  (process_stock_file lines).1 = Return tt <-> all_go_on lines init.
Proof.
  rewrite <- (process_lines_Return_iff 1). unfold process_stock_file.
  destruct (process_lines 1 lines init) as [[[[]|e] s] out]; simpl;
    split; auto; discriminate.
Qed.

(** X20: when every line returns or raises a [StockError],
    [process_stock_file] prints, after the log of the lines, the final
    header and the lines of [print_stock] for the table that the
    [process_command] calls leave; the log announces each line, stripped,
    under its number counted from 1, and reports each [StockError] under
    the number of its line. *)
Theorem process_stock_file_report lines :
  all_go_on lines init ->
  exists log,
    process_stock_file lines
    = (Return tt,
       (log ++ FinalStockLevels
            :: (Text <$> print_stock (run_all lines init)))%list)
    /\ (FinalStockLevels ∉ log)
    /\ forall i line,
         lines !! i = Some line ->
         Processing (S i) (PyStr.strip line) ∈ log
         /\ forall e,
              (process_command line (run_all (take i lines) init)).1
              = Raise (StockError e) ->
              ErrorProcessing (S i) (PyStr.strip line) ∈ log
              /\ ErrorDetail e ∈ log.
Proof.
  intros Hgo. exists (process_lines 1 lines init).2.
  destruct (process_lines_complete 1 lines init Hgo) as [Hres Hlog].
  pose proof (process_lines_no_final 1 lines init) as Hfinal.
  unfold process_stock_file.
  destruct (process_lines 1 lines init) as [[r s] out].
  simpl in Hres. injection Hres as -> ->.
  split; [reflexivity|]. split; [exact Hfinal | exact Hlog].
Qed.

Lemma process_stock_file_report_witness :
  exists log,
    process_stock_file ["set-stock AB-6 5 "; " add-stock ZZ-1 4"]
    = (Return tt,
       (log ++ FinalStockLevels
            :: (Text <$> print_stock
                  (run_all ["set-stock AB-6 5 "; " add-stock ZZ-1 4"]
                     init)))%list)
    /\ (FinalStockLevels ∉ log)
    /\ forall i line,
         ["set-stock AB-6 5 "; " add-stock ZZ-1 4"] !! i = Some line ->
         Processing (S i) (PyStr.strip line) ∈ log
         /\ forall e,
              (process_command line
                 (run_all
                    (take i ["set-stock AB-6 5 "; " add-stock ZZ-1 4"])
                    init)).1
              = Raise (StockError e) ->
              ErrorProcessing (S i) (PyStr.strip line) ∈ log
              /\ ErrorDetail e ∈ log.
Proof.
  apply process_stock_file_report.
  intros [|[|i]] line Hl; try discriminate; injection Hl as <-;
    vm_compute; exact I.
Defined.

(** X21: when a line raises an exception other than [StockError], the
    lines before it having returned or raised a [StockError],
    [process_stock_file] raises that exception; it has printed the log
    of the earlier lines and the announcement of that line, and neither
    the final levels nor anything about the lines after it. *)
Theorem process_stock_file_aborts pre line rest :
  all_go_on pre init ->
  ~ goes_on (process_command line (run_all pre init)).1 ->
  exists e,
    (process_command line (run_all pre init)).1 = Raise e
    /\ process_stock_file (pre ++ line :: rest)
       = (Raise e,
          ((process_lines 1 pre init).2
           ++ [Processing (S (length pre)) (PyStr.strip line)])%list)
    /\ FinalStockLevels
         ∉ ((process_lines 1 pre init).2
            ++ [Processing (S (length pre)) (PyStr.strip line)])%list.
Proof.
  intros Hpre Hstop.
  destruct (process_lines_stops (1 + length pre) line rest _ Hstop)
    as (e & He & Hline).
  exists e. split; [exact He|]. split.
  - unfold process_stock_file.
    rewrite (process_lines_app 1 pre (line :: rest) init Hpre), Hline.
    reflexivity.
  - rewrite elem_of_app, list_elem_of_singleton.
    intros [H | H]; [|discriminate].
    exact (process_lines_no_final 1 pre init H).
Qed.

Lemma process_stock_file_aborts_witness :
  exists e,
    (process_command "order" (run_all ["set-stock AB-6 5"] init)).1 = Raise e
    /\ process_stock_file
         (["set-stock AB-6 5"] ++ "order" :: ["set-stock AB-6 7"])
       = (Raise e,
          ((process_lines 1 ["set-stock AB-6 5"] init).2
           ++ [Processing (S (length ["set-stock AB-6 5"]))
                 (PyStr.strip "order")])%list)
    /\ FinalStockLevels
         ∉ ((process_lines 1 ["set-stock AB-6 5"] init).2
            ++ [Processing (S (length ["set-stock AB-6 5"]))
                  (PyStr.strip "order")])%list.
Proof.
  apply process_stock_file_aborts.
  - intros [|i] line Hl; try discriminate. injection Hl as <-.
    vm_compute. exact I.
  - vm_compute. intros [].
Defined.

(** X22: a line of whitespace only, such as an empty line of the file,
    ends [process_stock_file] with an [IndexError] when the lines before
    it have returned or raised a [StockError]: the final levels are not
    printed and the lines after it are not read. *)
Theorem blank_line_ends_the_run pre blank rest :
  all_go_on pre init ->
  PyStr.forallb_str PyStr.isspace blank = true ->
  process_stock_file (pre ++ blank :: rest)
  = (Raise IndexError,
     ((process_lines 1 pre init).2 ++ [Processing (S (length pre)) ""])%list).
Proof.
  intros Hpre Hblank.
  assert (Hcmd : forall stock,
            process_command blank stock = (Raise IndexError, stock)).
  { intros stock. rewrite process_command_tokens.
    rewrite (split_whitespace _ Hblank). reflexivity. }
  unfold process_stock_file.
  rewrite (process_lines_app 1 pre (blank :: rest) init Hpre).
  rewrite process_lines_exec, Hcmd, (strip_whitespace _ Hblank). reflexivity.
Qed.

Lemma blank_line_ends_the_run_witness :
  process_stock_file (["set-stock AB-6 5"] ++ newline :: ["set-stock AB-6 7"])
  = (Raise IndexError,
     ((process_lines 1 ["set-stock AB-6 5"] init).2
      ++ [Processing (S (length ["set-stock AB-6 5"])) ""])%list).
Proof.
  apply blank_line_ends_the_run; [|reflexivity].
  intros [|i] line Hl; try discriminate. injection Hl as <-.
  vm_compute. exact I.
Defined.

(** ** The order of the report *)

Lemma string_ltb_leb a b : String.ltb a b = negb (String.leb b a).
Proof.
  unfold String.ltb, String.leb. rewrite (String.compare_antisym a b).
  destruct (String.compare b a); reflexivity.
Qed.

Lemma item_le_iff a b :
  item_le a b
  <-> (a.1 = b.1 /\ a.2 <= b.2) \/ (a.1 <> b.1 /\ String.le a.1 b.1).
Proof.
  unfold item_le, item_lt, String.le.
  destruct (String.eqb b.1 a.1) eqn:He.
  - apply String.eqb_eq in He. rewrite Z.ltb_ge. split.
    + intros H. left. auto.
    + intros [[_ H] | [H _]]; [exact H | congruence].
  - apply String.eqb_neq in He. rewrite string_ltb_leb, negb_false_iff.
    rewrite Is_true_true. split.
    + intros H. right. split; [congruence | exact H].
    + intros [[H _] | [_ H]]; [congruence | exact H].
Qed.

#[global] Instance item_le_total : Total item_le.
Proof.
  intros a b. rewrite !item_le_iff.
  destruct (decide (a.1 = b.1)) as [He | Hne].
  - destruct (Z.le_ge_cases a.2 b.2); [left | right]; left; auto.
  - destruct (total String.le a.1 b.1); [left | right]; right; auto.
Qed.

#[global] Instance item_le_trans : Transitive item_le.
Proof.
  intros a b c. rewrite !item_le_iff.
  intros [[Hab Hab'] | [Hab Hab']] [[Hbc Hbc'] | [Hbc Hbc']].
  - left. split; [congruence | lia].
  - right. rewrite Hab. auto.
  - right. rewrite <- Hbc. auto.
  - right. split; [|etransitivity; eassumption].
    intros Hac. rewrite Hac in Hab'. apply Hbc.
    apply (anti_symm String.le); assumption.
Qed.

#[global] Instance item_le_antisym : AntiSymm (=) item_le.
Proof.
  intros [a1 a2] [b1 b2]. rewrite !item_le_iff. simpl.
  intros [[H1 H2] | [H1 H2]] [[H3 H4] | [H3 H4]]; try congruence.
  - f_equal; [exact H1 | lia].
  - destruct H1. apply (anti_symm String.le); assumption.
Qed.

Lemma sorted_StronglySorted items : StronglySorted item_le (sorted items).
Proof. apply StronglySorted_merge_sort; apply _. Qed.

Lemma sorted_Permutation items : sorted items ≡ₚ items.
Proof. apply merge_sort_Permutation. Qed.

(** With distinct keys, the order of the items is the strict order of
    their keys. *)
Lemma StronglySorted_keys items :
  NoDup items.*1 -> StronglySorted item_le items ->
  StronglySorted (fun a b => String.ltb a.1 b.1 = true) items.
Proof.
  induction items as [|a items IH]; intros Hnd Hs; [constructor|].
  apply NoDup_cons in Hnd as [Hnot Hnd].
  apply StronglySorted_inv in Hs as [Hs Hall].
  constructor; [apply IH; assumption|].
  apply Forall_forall. intros b Hb.
  rewrite Forall_forall in Hall. specialize (Hall b Hb).
  apply item_le_iff in Hall as [[He _] | [Hne Hle]].
  - destruct Hnot. rewrite He. apply list_elem_of_fmap_2. exact Hb.
  - rewrite string_ltb_leb, negb_true_iff.
    destruct (String.leb b.1 a.1) eqn:Hba; [|reflexivity].
    destruct Hne. apply (anti_symm String.le); [exact Hle|].
    unfold String.le. rewrite Hba. exact I.
Qed.

(** X23: [print_stock] prints one line per entry of the table, made of
    the SKU, a space and the level, the lines being in strictly
    ascending order of the SKUs; and the items of the table sorted from
    any other order give the same lines, so that the report does not
    depend on the order in which the SKUs were stored. *)
Theorem print_stock_sorted stock :
  (exists items,
     print_stock stock
     = (fun '(sku, level) => sku ++ " " ++ str level) <$> items
     /\ items ≡ₚ map_to_list stock
     /\ StronglySorted (fun a b => String.ltb a.1 b.1 = true) items)
  /\ length (print_stock stock) = size stock
  /\ (forall items,
        items ≡ₚ map_to_list stock ->
        (fun '(sku, level) => sku ++ " " ++ str level) <$> sorted items
        = print_stock stock).
Proof.
  split; [|split].
  - exists (sorted (map_to_list stock)). split; [reflexivity|].
    split; [apply sorted_Permutation|].
    apply StronglySorted_keys; [|apply sorted_StronglySorted].
    rewrite sorted_Permutation. apply NoDup_fst_map_to_list.
  - unfold print_stock. rewrite length_fmap, sorted_Permutation.
    apply length_map_to_list.
  - intros items Hperm. unfold print_stock. f_equal.
    apply (StronglySorted_unique item_le); try apply sorted_StronglySorted.
    rewrite !sorted_Permutation. exact Hperm.
Qed.

Lemma print_stock_sorted_witness :
  (fun '(sku, level) => sku ++ " " ++ str level)
    <$> sorted [("CD-3", 2); ("AB-6", 1)]
  = print_stock (<["AB-6" := 1]> (<["CD-3" := 2]> init)).
Proof.
  destruct (print_stock_sorted (<["AB-6" := 1]> (<["CD-3" := 2]> init)))
    as (_ & _ & H).
  apply H. apply NoDup_Permutation.
  - apply NoDup_cons. split; [|apply NoDup_singleton].
    rewrite list_elem_of_singleton. discriminate.
  - apply NoDup_map_to_list.
  - intros [k v]. rewrite elem_of_map_to_list, !elem_of_cons, elem_of_nil.
    unfold init. rewrite !lookup_insert, lookup_empty. split.
    + intros [[= -> ->] | [[= -> ->] | []]]; reflexivity.
    + repeat case_decide; intros [= <-]; subst k; auto.
Defined.

(** ** Reading a report back *)

Lemma amounts_read_back :
  forallb amount_reads_back (seqZ 0 1000) = true.
Proof. vm_compute. reflexivity. Qed.

Lemma str_amount level :
  0 <= level <= 999 ->
  validate_amount (str level) = Return tt /\ int (str level) = Return level.
Proof.
  intros Hl. pose proof amounts_read_back as H.
  rewrite forallb_forall in H. specialize (H level).
  assert (Hin : In level (seqZ 0 1000)).
  { apply list_elem_of_In, elem_of_seqZ. lia. }
  specialize (H Hin). unfold amount_reads_back in H.
  destruct (validate_amount (str level)) as [[]|]; [|discriminate].
  destruct (int (str level)) as [m|]; [|discriminate].
  apply Z.eqb_eq in H as ->. auto.
Qed.

Lemma exec_stock_line sku level stock :
  sku_grammar sku -> 0 <= level <= 999 ->
  exec stock ("set-stock " ++ sku ++ " " ++ str level) = <[sku := level]> stock.
Proof.
  intros Hsku Hl. destruct (str_amount level Hl) as [Ha Hn].
  destruct (sku_grammar_no_space _ Hsku) as [H1 H2].
  destruct (valid_amount_no_space _ Ha) as [H3 H4].
  apply (set_stock_tokens _ sku (str level) level).
  - apply split_set_stock_line; assumption.
  - apply validate_sku_spec. auto.
  - exact Ha.
  - exact Hn.
Qed.

Lemma run_all_stock_lines items stock :
  (forall sku level, (sku, level) ∈ items ->
                     sku_grammar sku /\ 0 <= level <= 999) ->
  run_all ((fun '(sku, level) => "set-stock " ++ sku ++ " " ++ str level)
             <$> items) stock
  = foldl (fun s item => <[item.1 := item.2]> s) stock items.
Proof.
  revert stock. induction items as [|[sku level] items IH]; intros stock Hok;
    [reflexivity|].
  simpl. destruct (Hok sku level ltac:(apply elem_of_cons; auto)) as [H1 H2].
  rewrite (exec_stock_line _ _ _ H1 H2). apply IH.
  intros k v Hin. apply Hok. apply elem_of_cons. auto.
Qed.

Lemma foldl_insert_list_to_map (items : list (string * Z)) :
  foldl (fun s item => <[item.1 := item.2]> s) (∅ : gmap string Z) items
  = list_to_map (reverse items).
Proof.
  induction items as [|item items IH] using rev_ind; [reflexivity|].
  rewrite foldl_snoc, reverse_snoc, IH. reflexivity.
Qed.

(** X24: for a table whose keys are SKUs of the grammar and whose levels
    are within [0, 999], the lines that [print_stock] prints, each read
    as the arguments of a set-stock instruction and processed from the
    empty table, give the table back. *)
Theorem report_reads_back stock :
  (forall sku level,
     stock !! sku = Some level -> sku_grammar sku /\ 0 <= level <= 999) ->
  run_all ((fun line => "set-stock " ++ line) <$> print_stock stock) init
  = stock.
Proof.
  intros Hok. unfold print_stock. rewrite <- list_fmap_compose.
  erewrite (list_fmap_ext _
              (fun '(sku, level) => "set-stock " ++ sku ++ " " ++ str level));
    [|intros i [sku level] _; reflexivity].
  rewrite run_all_stock_lines.
  - unfold init. rewrite foldl_insert_list_to_map.
    rewrite <- (list_to_map_to_list stock) at 2.
    apply list_to_map_proper.
    + rewrite reverse_Permutation, sorted_Permutation.
      apply NoDup_fst_map_to_list.
    + rewrite reverse_Permutation. apply sorted_Permutation.
  - intros sku level Hin. apply Hok. apply elem_of_map_to_list.
    rewrite <- sorted_Permutation. exact Hin.
Qed.

Lemma report_reads_back_witness :
  run_all ((fun line => "set-stock " ++ line)
             <$> print_stock (<["AB-6" := 70]> (<["CD-3" := 0]> init))) init
  = <["AB-6" := 70]> (<["CD-3" := 0]> init).
Proof.
  apply report_reads_back. intros sku level. unfold init.
  rewrite !lookup_insert, lookup_empty.
  repeat case_decide; intros [= <-]; subst sku; split; try lia.
  - exists "AB", "6". repeat split; simpl; lia.
  - exists "CD", "3". repeat split; simpl; lia.
Defined.

(** ** set-stock, pair by pair *)

Lemma process_set_stock_valid sku amount n rest stock :
  validate_sku sku = Return tt -> validate_amount amount = Return tt ->
  int amount = Return n ->
  process_set_stock (sku :: amount :: rest) stock
  = process_set_stock rest (<[sku := n]> stock).
Proof.
  intros Hs Ha Hn. unfold process_set_stock.
  fold (pairs_of (sku :: amount :: rest)). fold (pairs_of rest).
  rewrite pairs_of_cons, for_each_cons.
  rewrite (set_stock_pair_valid _ _ _ _ Hs Ha Hn). reflexivity.
Qed.

(** X25: in a set-stock instruction, of two pairs for the same SKU the
    later one decides the level, and two pairs for different SKUs can be
    exchanged, all of them passing validation. *)
Theorem set_stock_pairs_compose sku1 amount1 sku2 amount2 rest stock :
  validate_sku sku1 = Return tt -> validate_amount amount1 = Return tt ->
  validate_sku sku2 = Return tt -> validate_amount amount2 = Return tt ->
  process_set_stock (sku1 :: amount1 :: sku1 :: amount2 :: rest) stock
  = process_set_stock (sku1 :: amount2 :: rest) stock
  /\ (sku1 <> sku2 ->
      process_set_stock (sku1 :: amount1 :: sku2 :: amount2 :: rest) stock
      = process_set_stock (sku2 :: amount2 :: sku1 :: amount1 :: rest) stock).
Proof.
  intros Hs1 Ha1 Hs2 Ha2.
  destruct (validate_amount_Return _ Ha1) as (n1 & Hn1 & _).
  destruct (validate_amount_Return _ Ha2) as (n2 & Hn2 & _).
  split.
  - rewrite (process_set_stock_valid _ _ _ _ _ Hs1 Ha1 Hn1).
    rewrite !(process_set_stock_valid _ _ _ _ _ Hs1 Ha2 Hn2).
    rewrite insert_insert_eq. reflexivity.
  - intros Hne.
    rewrite (process_set_stock_valid _ _ _ _ _ Hs1 Ha1 Hn1).
    rewrite !(process_set_stock_valid _ _ _ _ _ Hs2 Ha2 Hn2).
    rewrite (process_set_stock_valid _ _ _ _ _ Hs1 Ha1 Hn1).
    rewrite insert_insert_ne by congruence. reflexivity.
Qed.

Lemma set_stock_pairs_compose_witness :
  process_set_stock ["AB-6"; "1"; "AB-6"; "2"; "EF-1"; "9"] init
  = process_set_stock ["AB-6"; "2"; "EF-1"; "9"] init
  /\ process_set_stock ["AB-6"; "1"; "CD-3"; "2"; "EF-1"; "9"] init
     = process_set_stock ["CD-3"; "2"; "AB-6"; "1"; "EF-1"; "9"] init.
Proof.
  destruct (set_stock_pairs_compose "AB-6" "1" "CD-3" "2" ["EF-1"; "9"] init)
    as [H1 H2]; try reflexivity.
  split; [exact H1 | apply H2; discriminate].
Defined.

(** X26: a set-stock instruction never raises a [StockError]: whatever
    its arguments, [process_command] returns normally, or it raises the
    [ValueError] that [validate_amount] raised on one of the argument
    tokens, one that [isdigit] accepts and [int] refuses (it holds a
    digit that is not a decimal, or more than 4300 digits). *)
Theorem set_stock_reports_no_error instruction args stock :
  PyStr.split instruction = "set-stock" :: args ->
  (process_command instruction stock).1 = Return tt
  \/ ((process_command instruction stock).1 = Raise ValueError
      /\ exists amount,
           amount ∈ args /\ validate_amount amount = Raise ValueError
           /\ PyStr.isdigit amount = true /\ int amount = Raise ValueError).
Proof.
  intros Hsplit. rewrite process_command_tokens, Hsplit.
  change (String.eqb "set-stock" "set-stock") with true. cbv iota.
  destruct (process_set_stock args stock) as [[[]|e] stock'] eqn:H; [auto|].
  apply process_set_stock_Raise in H as (-> & amount & Hin & Ha).
  right. split; [reflexivity|]. exists amount.
  split; [exact Hin|]. split; [exact Ha|].
  exact (validate_amount_ValueError_int _ Ha).
Qed.

Lemma set_stock_reports_no_error_witness :
  (process_command "set-stock AB-6 1000 ab 5" init).1 = Return tt
  \/ ((process_command "set-stock AB-6 1000 ab 5" init).1 = Raise ValueError
      /\ exists amount,
           amount ∈ ["AB-6"; "1000"; "ab"; "5"]
           /\ validate_amount amount = Raise ValueError
           /\ PyStr.isdigit amount = true /\ int amount = Raise ValueError).
Proof.
  apply set_stock_reports_no_error. reflexivity.
Defined.

(** X27: [process_set_stock] goes through the pairs made of token 2i
    and token 2i+1, so that a trailing unpaired token is dropped.  On no
    token it returns and leaves the table as it is.  After pairs that
    have been processed, a pair that passes validation returns with the
    level of its SKU set to the amount, whatever was stored before, and
    a pair whose SKU or amount fails validation with a [StockError]
    returns with the table as the earlier pairs left it. *)
Theorem process_set_stock_pair_by_pair :
  (forall parts stock,
     process_set_stock parts stock
     = for_each (pairs_of parts) set_stock_pair stock)
  /\ (forall parts i sku amount,
        pairs_of parts !! i = Some (sku, amount)
        <-> parts !! (2 * i)%nat = Some sku
            /\ parts !! (2 * i + 1)%nat = Some amount)
  /\ (forall stock, process_set_stock [] stock = (Return tt, stock))
  /\ (forall parts last stock,
        Nat.Even (length parts) ->
        process_set_stock (parts ++ [last]) stock
        = process_set_stock parts stock)
  /\ (forall pre sku amount stock stock',
        Nat.Even (length pre) ->
        process_set_stock pre stock = (Return tt, stock') ->
        validate_sku sku = Return tt -> validate_amount amount = Return tt ->
        exists n,
          int amount = Return n /\ 0 <= n <= 999
          /\ process_set_stock (pre ++ [sku; amount]) stock
             = (Return tt, <[sku := n]> stock'))
  /\ (forall pre sku amount e stock stock',
        Nat.Even (length pre) ->
        process_set_stock pre stock = (Return tt, stock') ->
        validate_sku sku = Raise (StockError e)
        \/ validate_amount amount = Raise (StockError e) ->
        process_set_stock (pre ++ [sku; amount]) stock = (Return tt, stock')).
Proof.
  split; [reflexivity|]. split; [apply pairs_of_lookup|].
  split; [reflexivity|]. split; [|split].
  - intros parts last stock Heven. unfold process_set_stock.
    fold (pairs_of (parts ++ [last])). fold (pairs_of parts).
    rewrite pairs_of_app by exact Heven.
    rewrite pairs_of_one, app_nil_r. reflexivity.
  - intros pre sku amount stock stock' Heven Hpre Hs Ha.
    destruct (validate_amount_Return _ Ha) as (n & Hn & Hr).
    exists n. split; [exact Hn|]. split; [exact Hr|].
    rewrite (process_set_stock_after _ _ _ _ Heven Hpre).
    rewrite (process_set_stock_valid _ _ _ _ _ Hs Ha Hn). reflexivity.
  - intros pre sku amount e stock stock' Heven Hpre He.
    rewrite (process_set_stock_after _ _ _ _ Heven Hpre).
    unfold process_set_stock. fold (pairs_of [sku; amount]).
    rewrite pairs_of_cons, for_each_cons.
    rewrite (set_stock_pair_skip _ _ _ _ He). reflexivity.
Qed.

Lemma process_set_stock_pair_by_pair_witness :
  process_set_stock ["AB_6"; "5"; "EF-1"; "3"; "EF-1"; "7"; "GH-2"]
    (<["EF-1" := 1]> init)
  = (Return tt, <["EF-1" := 7]> (<["EF-1" := 3]> (<["EF-1" := 1]> init))).
Proof.
  destruct process_set_stock_pair_by_pair
    as (_ & _ & Hbase & Hlast & Hset & Hskip).
  change ["AB_6"; "5"; "EF-1"; "3"; "EF-1"; "7"; "GH-2"]
    with (["AB_6"; "5"; "EF-1"; "3"; "EF-1"; "7"] ++ ["GH-2"])%list.
  rewrite Hlast by (exists 3%nat; reflexivity).
  assert (H1 : process_set_stock ["AB_6"; "5"] (<["EF-1" := 1]> init)
               = (Return tt, <["EF-1" := 1]> init)).
  { apply (Hskip [] "AB_6" "5" (InvalidSkuFormat "AB_6"));
      [exists 0%nat; reflexivity | apply Hbase | left; reflexivity]. }
  assert (H2 : process_set_stock ["AB_6"; "5"; "EF-1"; "3"]
                 (<["EF-1" := 1]> init)
               = (Return tt, <["EF-1" := 3]> (<["EF-1" := 1]> init))).
  { destruct (Hset ["AB_6"; "5"] "EF-1" "3" (<["EF-1" := 1]> init)
                (<["EF-1" := 1]> init)) as (n & Hn & _ & H);
      [exists 1%nat; reflexivity | exact H1 | reflexivity ..|].
    injection Hn as <-. exact H. }
  destruct (Hset ["AB_6"; "5"; "EF-1"; "3"] "EF-1" "7" (<["EF-1" := 1]> init)
              (<["EF-1" := 3]> (<["EF-1" := 1]> init))) as (n & Hn & _ & H);
    [exists 2%nat; reflexivity | exact H2 | reflexivity ..|].
  injection Hn as <-. exact H.
Defined.
